(** * Feedback dashboard (app.py): a shallow embedding and its properties

    The script app.py is re-executed top to bottom by Streamlit at every
    interaction.  It loads a CSV of feedback rows, lets the user pick a
    profile, classifies the feedback texts of that profile and shows a
    ranking table.

    Conventions of the embedding:
    - a pandas cell that may be missing (NaN) is an [option]; [None] is NaN;
    - ratings (floats in the source) are rationals, so the mean is exact;
    - the external world (environment, HTTP, CSV parser, classifier, the
      choice made in the select box) is a Section variable;
    - Streamlit calls append an [element] to the screen of the current run;
    - DataFrame objects live in a heap and are named by references, so that
      copies and in-place column assignments are distinguishable. *)

From Stdlib Require Import String List Bool Arith Lia QArith Permutation Sorted.
From Stdlib Require Import DecimalString.
Import ListNotations.
Close Scope Q_scope.
Open Scope string_scope.
Open Scope list_scope.
Open Scope nat_scope.

(** ** Python values and exceptions *)

(** An exception derived from Python's [Exception]: class name and message. *)
Record exn := mkExn { exn_class : string; exn_msg : string }.

Inductive result (A : Type) : Type :=
| Ok (a : A)
| Raise (e : exn).
Arguments Ok {A} a.
Arguments Raise {A} e.

(** [sub in s] on Python strings. *)
Fixpoint contains (sub s : string) : bool :=
  if prefix sub s then true
  else match s with
       | EmptyString => false
       | String _ s' => contains sub s'
       end.

(** Truthiness of an optional string: [None] and the empty string are falsy. *)
Definition truthy (v : option string) : bool :=
  match v with
  | Some s => negb (String.eqb s "")
  | None => false
  end.

(** ** Tables *)

(** One feedback row.  [sentiment_experiencia] is the cell of the derived
    column; it only has a meaning in a table that has that column. *)
Record row := mkRow {
  perfil : option string;
  experiencia : option string;
  nota : option Q;
  data : option string;
  sentiment_experiencia : option string
}.

(** A DataFrame: its rows and whether the column 'sentiment_experiencia'
    is among its columns. *)
Record DataFrame := mkDataFrame {
  has_sentiment : bool;
  rows : list row
}.

(** [pd.DataFrame()] *)
Definition pd_DataFrame : DataFrame := mkDataFrame false [].

(** [df.empty] *)
Definition empty (df : DataFrame) : bool :=
  match rows df with [] => true | _ => false end.

(** One row of the ranking table. *)
Record rank_row := mkRank {
  r_perfil : string;
  avg_nota : option Q;
  total_entries : nat
}.

(** ** The user surface *)

(** The pieces of an f-string, kept unformatted. *)
Inductive piece :=
| Lit (s : string)
| Fmt_cell (c : option string)
| Fmt_exn (e : exn)
| Fmt_2f (x : option Q)
| Fmt_int (n : nat).

Definition fstring := list piece.

Inductive element :=
| st_title (s : string)
| st_error (msg : fstring)
| st_warning (msg : fstring)
| st_selectbox (label : string) (options : list string) (help : string)
| st_subheader (s : string)
| st_markdown (msg : fstring)
| st_dataframe (t : list rank_row)
| st_in_column (i : nat) (e : element).

(** ** The state of a session and the monad of the script *)

Record state := mkState {
  screen : list element;
  heap : list DataFrame;
  data_cache : option (DataFrame * list element);
  calls : list (option string)
}.

Definition M (A : Type) : Type := state -> result A * state.

Definition ret {A} (a : A) : M A := fun st => (Ok a, st).

Definition bind {A B} (c : M A) (k : A -> M B) : M B :=
  fun st =>
    match c st with
    | (Ok a, st') => k a st'
    | (Raise e, st') => (Raise e, st')
    end.

Definition raise {A} (e : exn) : M A := fun st => (Raise e, st).

(** [try: c except Exception as e: h e] *)
Definition try_except {A} (c : M A) (h : exn -> M A) : M A :=
  fun st =>
    match c st with
    | (Ok a, st') => (Ok a, st')
    | (Raise e, st') => h e st'
    end.

Definition lift {A} (r : result A) : M A := fun st => (r, st).

Declare Scope script_scope.
Delimit Scope script_scope with script.
Notation "x <- c ;; k" := (bind c (fun x => k))
  (at level 100, c at next level, right associativity) : script_scope.
Notation "c ;; k" := (bind c (fun _ => k))
  (at level 100, right associativity) : script_scope.
Open Scope script_scope.

(** Rendering one element. *)
Definition emit (e : element) : M unit :=
  fun st => (Ok tt, mkState (screen st ++ [e]) (heap st) (data_cache st) (calls st)).

(** Allocation of a new DataFrame object. *)
Definition alloc (d : DataFrame) : M nat :=
  fun st => (Ok (length (heap st)),
             mkState (screen st) (heap st ++ [d]) (data_cache st) (calls st)).

Definition deref (r : nat) : M DataFrame :=
  fun st =>
    match nth_error (heap st) r with
    | Some d => (Ok d, st)
    | None => (Raise (mkExn "NameError" "unbound object"), st)
    end.

Fixpoint update {A} (l : list A) (i : nat) (x : A) : list A :=
  match l, i with
  | [], _ => []
  | _ :: l', O => x :: l'
  | y :: l', S i' => y :: update l' i' x
  end.

(** In-place modification of the object a reference names. *)
Definition modify (r : nat) (f : DataFrame -> DataFrame) : M unit :=
  d <- deref r ;;
  fun st => (Ok tt, mkState (screen st) (update (heap st) r (f d))
                            (data_cache st) (calls st)).

Fixpoint mapM {A B} (f : A -> M B) (l : list A) : M (list B) :=
  match l with
  | [] => ret []
  | x :: l' => y <- f x ;; ys <- mapM f l' ;; ret (y :: ys)
  end.

(** ** Sentiment analysis *)

Record prediction := mkPrediction { label : string; score : Q }.

Definition BAD : string := "🔴 RUIM".
Definition NEUTRAL : string := "🟡 NEUTRO".
Definition GOOD : string := "🟢 BOM".
Definition FALLBACK : string := "NEUTRAL".
Definition placeholder : string := "No content".

(** The three-way mapping of lines 47-52. *)
Definition bucket_of_label (l : string) : string :=
  if contains "1 star" l || contains "2 stars" l then BAD
  else if contains "3 stars" l then NEUTRAL
  else GOOD.

(** [result[0]] *)
Definition first_prediction (r : list prediction) : result prediction :=
  match r with
  | p :: _ => Ok p
  | [] => Raise (mkExn "IndexError" "list index out of range")
  end.

(** [sub] occurs somewhere in [s]: what Python's [sub in s] decides. *)
Definition occurs_in (sub s : string) : Prop :=
  exists pre post, s = (pre ++ sub ++ post)%string.

(** ** pandas, on the columns the script reads *)

(** [Series.dropna()] *)
Fixpoint dropna {A} (col : list (option A)) : list A :=
  match col with
  | [] => []
  | Some v :: col' => v :: dropna col'
  | None :: col' => dropna col'
  end.

(** The distinct values of a column, in order of first appearance. *)
Fixpoint unique (l : list string) : list string :=
  match l with
  | [] => []
  | x :: l' => x :: remove string_dec x (unique l')
  end.

Definition count (k : string) (l : list string) : nat := count_occ string_dec l k.

(** Stable sort of (value, count) pairs by decreasing count. *)
Fixpoint insert_desc (x : string * nat) (l : list (string * nat)) : list (string * nat) :=
  match l with
  | [] => [x]
  | y :: l' => if snd y <=? snd x then x :: y :: l' else y :: insert_desc x l'
  end.

Fixpoint sort_desc (l : list (string * nat)) : list (string * nat) :=
  match l with
  | [] => []
  | x :: l' => insert_desc x (sort_desc l')
  end.

(** [Series.value_counts()]: NaN is dropped, the distinct values are counted
    in order of first appearance and sorted by decreasing count; values
    with equal counts keep their order of first appearance. *)
Definition value_counts (col : list (option string)) : list (string * nat) :=
  let vals := dropna col in
  sort_desc (map (fun k => (k, count k vals)) (unique vals)).

(** The first entry holding the greatest count. *)
Fixpoint first_max (l : list (string * nat)) : option (string * nat) :=
  match l with
  | [] => None
  | x :: l' =>
      match first_max l' with
      | None => Some x
      | Some y => if snd y <=? snd x then Some x else Some y
      end
  end.

(** [Series.idxmax()]: the label of the first greatest value. *)
Definition idxmax (s : list (string * nat)) : result string :=
  match first_max s with
  | Some (k, _) => Ok k
  | None => Raise (mkExn "ValueError" "attempt to get argmax of an empty sequence")
  end.

(** [profile_counts[profile_counts > 1].index.tolist()] *)
Definition frequent_profiles (df : DataFrame) : list string :=
  let profile_counts := value_counts (map perfil (rows df)) in
  map fst (filter (fun kc => 1 <? snd kc) profile_counts).

(** [cell == p], false on NaN. *)
Definition eq_cell (c : option string) (p : string) : bool :=
  match c with
  | Some s => String.eqb s p
  | None => false
  end.

(** [Series.isin(l)] on one cell. *)
Definition isin (l : list string) (c : option string) : bool :=
  match c with
  | Some s => existsb (String.eqb s) l
  | None => false
  end.

(** [df[mask]]: a new table holding the rows the mask selects. *)
Definition getitem_mask (mask : row -> bool) (df : DataFrame) : DataFrame :=
  mkDataFrame (has_sentiment df) (filter mask (rows df)).

(** [Series.fillna(v)] *)
Definition fillna (v : string) (col : list (option string)) : list (option string) :=
  map (fun c => match c with Some s => Some s | None => Some v end) col.

(** [Series.astype(str)]: NaN becomes the text "nan". *)
Definition astype_str (col : list (option string)) : list string :=
  map (fun c => match c with Some s => s | None => "nan" end) col.

(** Row-wise assignment of a column of the same length. *)
Fixpoint assign {A} (upd : row -> A -> row) (rs : list row) (vals : list A) : list row :=
  match rs, vals with
  | r :: rs', v :: vals' => upd r v :: assign upd rs' vals'
  | _, _ => rs
  end.

(** [df['experiencia'] = vals] *)
Definition set_experiencia (vals : list string) (df : DataFrame) : DataFrame :=
  mkDataFrame (has_sentiment df)
    (assign (fun r v => mkRow (perfil r) (Some v) (nota r) (data r)
                              (sentiment_experiencia r))
            (rows df) vals).

(** [df['sentiment_experiencia'] = vals]: the column exists afterwards. *)
Definition set_sentiment (vals : list string) (df : DataFrame) : DataFrame :=
  mkDataFrame true
    (assign (fun r v => mkRow (perfil r) (experiencia r) (nota r) (data r) (Some v))
            (rows df) vals).

Definition Qsum (l : list Q) : Q := fold_right Qplus 0%Q l.

(** [Series.mean()]: NaN is skipped; the mean of no value is NaN.  The
    mean is taken in exact arithmetic: the rounding, the overflow and the
    infinities of floats are outside the model. *)
Definition mean (col : list (option Q)) : option Q :=
  match dropna col with
  | [] => None
  | vs => Some (Qsum vs / inject_Z (Z.of_nat (length vs)))%Q
  end.

(** Ascending sort of the group keys. *)
Fixpoint insert_key (x : string) (l : list string) : list string :=
  match l with
  | [] => [x]
  | y :: l' => if String.leb x y then x :: y :: l' else y :: insert_key x l'
  end.

Fixpoint sort_keys (l : list string) : list string :=
  match l with
  | [] => []
  | x :: l' => insert_key x (sort_keys l')
  end.

(** [groupby('perfil')]: one group per distinct non-NaN key, keys ascending. *)
Definition group_keys (rs : list row) : list string :=
  sort_keys (unique (dropna (map perfil rs))).

Definition group (rs : list row) (k : string) : list row :=
  filter (fun r => eq_cell (perfil r) k) rs.

(** [.agg(avg_nota=('nota', 'mean'), total_entries=('nota', 'size')).reset_index()] *)
Definition agg (rs : list row) : list rank_row :=
  map (fun k => mkRank k (mean (map nota (group rs k))) (length (group rs k)))
      (group_keys rs).

(** The order of [sort_values(by='avg_nota', ascending=False)]: greater
    means first, NaN last.  The default sort of pandas is not stable: the
    order the model gives to rows of equal mean is one of those pandas may
    give, and no statement below depends on it. *)
Definition precedes (a b : option Q) : bool :=
  match a, b with
  | Some x, Some y => Qle_bool y x
  | Some _, None => true
  | None, Some _ => false
  | None, None => true
  end.

Fixpoint insert_rank (x : rank_row) (l : list rank_row) : list rank_row :=
  match l with
  | [] => [x]
  | y :: l' =>
      if precedes (avg_nota x) (avg_nota y) then x :: y :: l'
      else y :: insert_rank x l'
  end.

Fixpoint sort_values (l : list rank_row) : list rank_row :=
  match l with
  | [] => []
  | x :: l' => insert_rank x (sort_values l')
  end.

(** Lines 100-106, for the table [df] and the list [frequent]. *)
Definition ranking_df (df : DataFrame) (frequent : list string) : list rank_row :=
  sort_values (agg (rows (getitem_mask (fun r => isin frequent (perfil r)) df))).

(** The comparison [a >= b] of two floats: false as soon as one is NaN. *)
Definition float_ge (a b : option Q) : bool :=
  match a, b with
  | Some x, Some y => Qle_bool y x
  | _, _ => false
  end.

(** ** The HTTP side of the loader *)

(** What the script reads of a response of [requests]: status, reason
    phrase, final URL and body. *)
Record Response := mkResponse {
  status_code : nat;
  reason : string;
  response_url : string;
  text : string
}.

(** [f"{n}"] for a natural number. *)
Definition str_of_nat (n : nat) : string :=
  NilZero.string_of_uint (Nat.to_uint n).

(** The HTTPError of [raise_for_status], with the message
    [f"{status_code} {kind}: {reason} for url: {url}"]. *)
Definition http_error (kind : string) (r : Response) : exn :=
  mkExn "HTTPError"
    (str_of_nat (status_code r) ++ " " ++ kind ++ ": " ++ reason r
       ++ " for url: " ++ response_url r)%string.

(** [response.raise_for_status()]: a client error for 400 to 499, a server
    error for 500 to 599, nothing otherwise. *)
Definition raise_for_status (r : Response) : result unit :=
  if (400 <=? status_code r) && (status_code r <? 500)
  then Raise (http_error "Client Error" r)
  else if (500 <=? status_code r) && (status_code r <? 600)
  then Raise (http_error "Server Error" r)
  else Ok tt.

(** [f"{file_id}"] for the value [os.getenv] returned. *)
Definition str_of_env (v : option string) : string :=
  match v with
  | Some s => s
  | None => "None"
  end.

Definition title_text : string :=
  "📊 Análise dos feedbacks sobre influencers brasileiros - Em construção".
Definition selectbox_label : string :=
  "Clique ou escreva. Apenas perfis com mais de um feedback são exibidos.".
Definition selectbox_help : string :=
  "Type to search for profiles with more than one entry.".
Definition no_data_text : string :=
  "No data available to display. Please check your dataset.".

(** The state in which the table [df] is the only object and nothing is
    rendered yet. *)
Definition loaded (df : DataFrame) : state := mkState [] [df] None [].

(** The session before the first run. *)
Definition fresh_session : state := mkState [] [] None [].

(** ** Sample inputs *)

Module Sample.

Definition feedback (p : string) (e : option string) (n : option Q) : row :=
  mkRow (Some p) e n (Some "2024-05-01") None.

(** "ana", "bia" and "duda" have two rows each, "caio" has one; the second
    row of "ana" has no text and the rows of "bia" have no rating. *)
Definition df : DataFrame :=
  mkDataFrame false
    [feedback "ana" (Some "otimo") (Some (5 # 1)%Q);
     feedback "bia" (Some "ruim") None;
     feedback "ana" None (Some (3 # 1)%Q);
     feedback "bia" (Some "pessimo") None;
     feedback "caio" (Some "ok") (Some (4 # 1)%Q);
     feedback "duda" (Some "ok") (Some (4 # 1)%Q);
     feedback "duda" (Some "ruim") (Some (2 # 1)%Q)].

(** A classifier that fails on the placeholder text. *)
Definition pipeline (text : option string) : result (list prediction) :=
  match text with
  | Some "otimo" => Ok [mkPrediction "5 stars" (9 # 10)%Q]
  | Some "ok" => Ok [mkPrediction "3 stars" (6 # 10)%Q]
  | Some "No content" => Raise (mkExn "RuntimeError" "model failure")
  | Some _ => Ok [mkPrediction "1 star" (8 # 10)%Q]
  | None => Raise (mkExn "ValueError" "not a text")
  end.

(** A world in which the download succeeds and parses to [df]. *)
Definition getenv (name : string) : option string := Some "1AbC".
Definition requests_get (u : string) : result Response :=
  Ok (mkResponse 200 "OK" u "perfil,experiencia,nota,data").
Definition read_csv (body : string) : result DataFrame := Ok df.

(** A world without the identifier, in which the server answers 404. *)
Definition getenv_missing (name : string) : option string := None.
Definition requests_get_404 (u : string) : result Response :=
  Ok (mkResponse 404 "Not Found" u "<html>Not Found</html>").

(** The exception [raise_for_status] raises on that answer. *)
Definition not_found : exn :=
  mkExn "HTTPError"
    "404 Client Error: Not Found for url: https://drive.google.com/uc?id=None".

End Sample.

(** ** Edge inputs *)

Module Edge.

(** A table in which no profile has two rows. *)
Definition df_singles : DataFrame :=
  mkDataFrame false
    [Sample.feedback "ana" (Some "otimo") (Some (5 # 1)%Q);
     Sample.feedback "bia" None None;
     mkRow None (Some "sem perfil") (Some (1 # 1)%Q) None None].

(** A table read from a CSV that has a 'sentiment_experiencia' column of
    its own: filled for "ana", empty for "bia". *)
Definition df_scored : DataFrame :=
  mkDataFrame true
    [mkRow (Some "bia") (Some "ruim") (Some (1 # 1)%Q) None None;
     mkRow (Some "ana") (Some "otimo") (Some (5 # 1)%Q) None (Some "bom");
     mkRow (Some "bia") None (Some (2 # 1)%Q) None None;
     mkRow (Some "ana") None None None (Some "mau");
     mkRow (Some "ana") (Some "ok") (Some (4 # 1)%Q) None (Some "mau")].

(** A classifier that answers with no prediction at all. *)
Definition pipeline_silent (text : option string) : result (list prediction) :=
  Ok [].

End Edge.

Section Script.

(** The process environment, the network and the CSV parser
    [pd.read_csv(io.StringIO(text), parse_dates=['data'], encoding='utf-8')]. *)
Variable getenv : string -> option string.
Variable requests_get : string -> result Response.
Variable read_csv : string -> result DataFrame.

(** The classifier [load_model()] returned on line 15 (the script is
    followed from there on); it is handed a cell. *)
Variable sentiment_pipeline : option string -> result (list prediction).

(** Lines 20-33. *)
Definition load_data : M DataFrame :=
  try_except
    (let file_id := getenv "GOOGLE_DRIVE_FILE_ID" in
     let url := ("https://drive.google.com/uc?id=" ++ str_of_env file_id)%string in
     response <- lift (requests_get url) ;;
     lift (raise_for_status response) ;;
     lift (read_csv (text response)))
    (fun e =>
       emit (st_error [Lit "Error loading data: "; Fmt_exn e]) ;;
       ret pd_DataFrame).

(** [@st.cache_data]: the first call runs the function and stores its value
    together with the elements it rendered; later calls replay them. *)
Definition cache_data (f : M DataFrame) : M DataFrame :=
  fun st =>
    match data_cache st with
    | Some (d, els) =>
        (Ok d, mkState (screen st ++ els) (heap st) (data_cache st) (calls st))
    | None =>
        match f st with
        | (Ok d, st') =>
            (Ok d, mkState (screen st') (heap st')
                           (Some (d, skipn (length (screen st)) (screen st')))
                           (calls st'))
        | (Raise e, st') => (Raise e, st')
        end
    end.

(** [sentiment_pipeline(text)]: the call is recorded in the session. *)
Definition call_pipeline (text : option string) : M (list prediction) :=
  fun st => (sentiment_pipeline text,
             mkState (screen st) (heap st) (data_cache st) (calls st ++ [text])).

(** Lines 40-55. *)
Definition analyze_sentiment (text : option string) : M string :=
  try_except
    (result <- call_pipeline text ;;
     p <- lift (first_prediction result) ;;
     ret (bucket_of_label (label p)))
    (fun e =>
       emit (st_warning [Lit "Error analyzing sentiment for text: ";
                         Fmt_cell text; Lit " -> "; Fmt_exn e]) ;;
       ret FALLBACK).

(** [st.selectbox]: the widget is rendered and yields the option the user
    chose, the first option while nothing valid is chosen, and [None] when
    there is no option. *)
Definition selected (options : list string) (choice : nat) : option string :=
  match nth_error options choice with
  | Some p => Some p
  | None => hd_error options
  end.

Definition selectbox (label : string) (options : list string) (help : string)
    (choice : nat) : M (option string) :=
  emit (st_selectbox label options help) ;;
  ret (selected options choice).

(** Lines 73-97: the panels of the selected profile. *)
Definition profile_panel (df : nat) (selected_profile : string) : M unit :=
  d <- deref df ;;
  masked <- alloc (getitem_mask (fun r => eq_cell (perfil r) selected_profile) d) ;;
  m <- deref masked ;;
  profile_data <- alloc m ;;
  pd <- deref profile_data ;;
  modify profile_data
    (set_experiencia (astype_str (fillna placeholder (map experiencia (rows pd))))) ;;
  pd <- deref profile_data ;;
  (if negb (has_sentiment pd) then
     col <- mapM analyze_sentiment (map experiencia (rows pd)) ;;
     modify profile_data (set_sentiment col)
   else ret tt) ;;
  pd <- deref profile_data ;;
  sentiment_summary <- lift (idxmax (value_counts (map sentiment_experiencia (rows pd)))) ;;
  let average_rating := mean (map nota (rows pd)) in
  let total_entries := length (rows pd) in
  emit (st_in_column 1 (st_subheader "Sentimento")) ;;
  emit (st_in_column 1 (st_markdown [Lit "## "; Fmt_cell (Some sentiment_summary)])) ;;
  emit (st_in_column 2 (st_subheader "Média das notas")) ;;
  emit (st_in_column 2 (st_markdown [Lit "## "; Fmt_2f average_rating])) ;;
  emit (st_in_column 3 (st_subheader "Nº de feedbacks")) ;;
  emit (st_in_column 3 (st_markdown [Lit "## "; Fmt_int total_entries])).

(** Lines 60-112, for the table the reference [df] names and the choice
    the user made in the select box. *)
Definition main (df : nat) (choice : nat) : M unit :=
  emit (st_title title_text) ;;
  d <- deref df ;;
  (if negb (empty d) then
     let frequent := frequent_profiles d in
     selected_profile <- selectbox selectbox_label frequent selectbox_help choice ;;
     (if truthy selected_profile then
        match selected_profile with
        | Some p => profile_panel df p
        | None => ret tt
        end
      else ret tt) ;;
     emit (st_subheader "🏆 Top Influencers por média de notas") ;;
     d' <- deref df ;;
     emit (st_dataframe (ranking_df d' frequent))
   else
     emit (st_warning [Lit no_data_text])) ;;
  emit (st_markdown [Lit "---"]) ;;
  emit (st_markdown [Lit "Developed by zLobo"]).

(** One execution of the whole script. *)
Definition script (choice : nat) : M unit :=
  d <- cache_data load_data ;;
  df <- alloc d ;;
  main df choice.

(** A rerun starts with an empty screen and no object; the cache and the
    record of classifier calls belong to the session. *)
Definition new_run (st : state) : state :=
  mkState [] [] (data_cache st) (calls st).

Definition rerun (choice : nat) (st : state) : result unit * state :=
  script choice (new_run st).

(** ** What one render computes, as pure functions of the table *)

(** The value [analyze_sentiment] returns for a text. *)
Definition sentiment_of (text : option string) : string :=
  match sentiment_pipeline text with
  | Ok (p :: _) => bucket_of_label (label p)
  | _ => FALLBACK
  end.

Definition warning (text : option string) (e : exn) : element :=
  st_warning [Lit "Error analyzing sentiment for text: ";
              Fmt_cell text; Lit " -> "; Fmt_exn e].

(** The warning [analyze_sentiment] renders for a text, if any. *)
Definition warning_of (text : option string) : list element :=
  match sentiment_pipeline text with
  | Ok (_ :: _) => []
  | Ok [] => [warning text (mkExn "IndexError" "list index out of range")]
  | Raise e => [warning text e]
  end.

(** The text of a row after line 76. *)
Definition fill (c : option string) : string :=
  match c with
  | Some s => s
  | None => placeholder
  end.

(** The texts a render hands to the classifier for profile [p]. *)
Definition texts_of (df : DataFrame) (p : string) : list (option string) :=
  if has_sentiment df then []
  else map (fun r => Some (fill (experiencia r))) (group (rows df) p).

(** The non-missing cells of the sentiment column of profile [p]. *)
Definition per_row_buckets (df : DataFrame) (p : string) : list string :=
  if has_sentiment df
  then dropna (map sentiment_experiencia (group (rows df) p))
  else map (fun r => sentiment_of (Some (fill (experiencia r)))) (group (rows df) p).

(** The object [profile_data] at the end of lines 73-81. *)
Definition profile_data_of (df : DataFrame) (p : string) : DataFrame :=
  mkDataFrame true
    (map (fun r => mkRow (perfil r) (Some (fill (experiencia r))) (nota r) (data r)
                     (if has_sentiment df then sentiment_experiencia r
                      else Some (sentiment_of (Some (fill (experiencia r))))))
         (group (rows df) p)).

(** The six elements of the three panels. *)
Definition panels (k : string) (average_rating : option Q) (n : nat) : list element :=
  [st_in_column 1 (st_subheader "Sentimento");
   st_in_column 1 (st_markdown [Lit "## "; Fmt_cell (Some k)]);
   st_in_column 2 (st_subheader "Média das notas");
   st_in_column 2 (st_markdown [Lit "## "; Fmt_2f average_rating]);
   st_in_column 3 (st_subheader "Nº de feedbacks");
   st_in_column 3 (st_markdown [Lit "## "; Fmt_int n])].

Definition footer : list element :=
  [st_markdown [Lit "---"]; st_markdown [Lit "Developed by zLobo"]].

(** The profile whose panels a render shows: the selected one, when it
    is truthy. *)
Definition shown_profile (df : DataFrame) (choice : nat) : option string :=
  match selected (frequent_profiles df) choice with
  | Some p => if truthy (Some p) then Some p else None
  | None => None
  end.

Definition header (df : DataFrame) : list element :=
  [st_title title_text;
   st_selectbox selectbox_label (frequent_profiles df) selectbox_help].

Definition ranking (df : DataFrame) : list element :=
  [st_subheader "🏆 Top Influencers por média de notas";
   st_dataframe (ranking_df df (frequent_profiles df))].

(** [profile_data['sentiment_experiencia'].value_counts().idxmax()] *)
Definition sentiment_summary (df : DataFrame) (p : string) : result string :=
  idxmax (value_counts (map sentiment_experiencia (rows (profile_data_of df p)))).

(** The choice [first_max] makes between the head and the best of the tail. *)
Definition pick (x : string * nat) (m : option (string * nat)) : option (string * nat) :=
  match m with
  | None => Some x
  | Some y => if snd y <=? snd x then Some x else Some y
  end.

(** The order of the ranking table, as a relation on its rows. *)
Definition ranked_before (a b : rank_row) : Prop :=
  precedes (avg_nota a) (avg_nota b) = true.

(** The elements that only a table with data gets: the select box, the
    panels in their columns and the ranking table. *)
Definition needs_data (e : element) : bool :=
  match e with
  | st_selectbox _ _ _ | st_in_column _ _ | st_dataframe _ => true
  | st_subheader _ => true
  | _ => false
  end.

(** The texts one render hands to the classifier. *)
Definition render_texts (df : DataFrame) (choice : nat) : list (option string) :=
  if empty df then []
  else match shown_profile df choice with
       | Some p => texts_of df p
       | None => []
       end.

(** The URL the loader requests. *)
Definition url : string :=
  ("https://drive.google.com/uc?id=" ++ str_of_env (getenv "GOOGLE_DRIVE_FILE_ID"))%string.

(** The ways the body of the loader's [try] raises. *)
Inductive load_failure : exn -> Prop :=
| network_error e :
    requests_get url = Raise e -> load_failure e
| bad_status response e :
    requests_get url = Ok response ->
    raise_for_status response = Raise e -> load_failure e
| parse_error response e :
    requests_get url = Ok response ->
    raise_for_status response = Ok tt ->
    read_csv (text response) = Raise e -> load_failure e.

(** [k] is a most frequent value of [l], and every value met before the
    first [k] is strictly less frequent. *)
Definition first_mode (k : string) (l : list string) : Prop :=
  exists pre post,
    l = pre ++ k :: post /\ ~ In k pre /\
    (forall k', count k' l <= count k l) /\
    (forall k', In k' pre -> count k' l < count k l).

(** ** The classifier adapter *)

Lemma analyze_sentiment_run text st :
  analyze_sentiment text st =
  (Ok (sentiment_of text),
   mkState (screen st ++ warning_of text) (heap st) (data_cache st)
           (calls st ++ [text])).
Proof.
  unfold analyze_sentiment, try_except, bind, call_pipeline, lift, emit, ret,
    sentiment_of, warning_of, warning.
  destruct (sentiment_pipeline text) as [[|p r]|e]; simpl;
    rewrite ?app_nil_r; reflexivity.
Qed.

Lemma mapM_analyze_sentiment l : forall st,
  mapM analyze_sentiment l st =
  (Ok (map sentiment_of l),
   mkState (screen st ++ flat_map warning_of l) (heap st) (data_cache st)
           (calls st ++ l)).
Proof.
  induction l as [|x l IH]; intros st; simpl.
  - unfold ret. rewrite !app_nil_r. destruct st; reflexivity.
  - unfold bind. rewrite analyze_sentiment_run, IH. simpl.
    unfold ret. rewrite <- !app_assoc. reflexivity.
Qed.

(** C1: whatever label the classifier gives, "1 star" and "2 stars" are
    mapped to the BAD bucket, "3 stars" to the NEUTRAL bucket, "4 stars"
    and "5 stars" to the GOOD bucket, and nothing is reported. *)
Theorem analyze_sentiment_star_mapping text p rest st
    (Hlabel : sentiment_pipeline text = Ok (p :: rest)) :
  (label p = "1 star" \/ label p = "2 stars" ->
   fst (analyze_sentiment text st) = Ok BAD) /\
  (label p = "3 stars" -> fst (analyze_sentiment text st) = Ok NEUTRAL) /\
  (label p = "4 stars" \/ label p = "5 stars" ->
   fst (analyze_sentiment text st) = Ok GOOD) /\
  screen (snd (analyze_sentiment text st)) = screen st.
Proof.
  rewrite analyze_sentiment_run. unfold sentiment_of, warning_of.
  rewrite Hlabel. simpl. rewrite app_nil_r.
  repeat split.
  - intros [H | H]; rewrite H; reflexivity.
  - intros H; rewrite H; reflexivity.
  - intros [H | H]; rewrite H; reflexivity.
Qed.

(** ** The loader *)

Lemma load_data_raises e st :
  load_failure e ->
  load_data st =
  (Ok pd_DataFrame,
   mkState (screen st ++ [st_error [Lit "Error loading data: "; Fmt_exn e]])
           (heap st) (data_cache st) (calls st)).
Proof.
  intros H. unfold load_data, try_except, bind, lift, emit, ret. fold url.
  destruct H as [e H | r e H1 H2 | r e H1 H2 H3].
  - rewrite H. reflexivity.
  - rewrite H1, H2. reflexivity.
  - rewrite H1, H2, H3. reflexivity.
Qed.

Lemma load_data_never_raises st : exists d, fst (load_data st) = Ok d.
Proof.
  unfold load_data, try_except, bind, lift, emit, ret. fold url.
  destruct (requests_get url) as [r|e]; [|eexists; reflexivity].
  destruct (raise_for_status r) as [[]|e]; [|eexists; reflexivity].
  destruct (read_csv (text r)) as [d|e]; eexists; reflexivity.
Qed.

(** ** One render *)

Lemma assign_map {A} (upd : row -> A -> row) (f : row -> A) rs :
  assign upd rs (map f rs) = map (fun r => upd r (f r)) rs.
Proof.
  induction rs as [|r rs IH]; simpl; [reflexivity | now rewrite IH].
Qed.

Lemma astype_str_fillna col :
  astype_str (fillna placeholder col) = map fill col.
Proof.
  unfold astype_str, fillna. rewrite map_map.
  apply map_ext. intros [s|]; reflexivity.
Qed.

Lemma set_experiencia_filled m :
  set_experiencia (astype_str (fillna placeholder (map experiencia (rows m)))) m =
  mkDataFrame (has_sentiment m)
    (map (fun r => mkRow (perfil r) (Some (fill (experiencia r))) (nota r) (data r)
                     (sentiment_experiencia r)) (rows m)).
Proof.
  unfold set_experiencia. now rewrite astype_str_fillna, map_map, assign_map.
Qed.

Lemma set_sentiment_classified (f : option string -> string) m :
  set_sentiment (map f (map experiencia (rows m))) m =
  mkDataFrame true
    (map (fun r => mkRow (perfil r) (experiencia r) (nota r) (data r)
                     (Some (f (experiencia r)))) (rows m)).
Proof.
  unfold set_sentiment. now rewrite map_map, assign_map.
Qed.

Lemma profile_panel_run df p scr c cs :
  profile_panel 0 p (mkState scr [df] c cs) =
  let pd := profile_data_of df p in
  let st' k := mkState (scr ++ flat_map warning_of (texts_of df p) ++ k)
                 [df; getitem_mask (fun r => eq_cell (perfil r) p) df; pd] c
                 (cs ++ texts_of df p) in
  match idxmax (value_counts (map sentiment_experiencia (rows pd))) with
  | Ok k => (Ok tt, st' (panels k (mean (map nota (rows pd))) (length (rows pd))))
  | Raise e => (Raise e, st' [])
  end.
Proof.
  unfold profile_panel, bind, deref, alloc, modify, bind, deref, lift, emit, ret.
  cbn [heap nth_error length app update screen data_cache calls].
  rewrite !set_experiencia_filled.
  cbn [getitem_mask has_sentiment rows].
  unfold profile_data_of, texts_of, group.
  set (g := filter (fun r => eq_cell (perfil r) p) (rows df)).
  destruct (has_sentiment df); cbn [negb].
  - cbn [heap nth_error update rows flat_map app].
    rewrite !app_nil_r.
    destruct (idxmax _) as [k|e]; cbn; rewrite <- ?app_assoc; reflexivity.
  - rewrite mapM_analyze_sentiment.
    cbn [heap nth_error update rows screen data_cache calls].
    match goal with
    | |- context [set_sentiment ?v ?m] =>
        replace (set_sentiment v m) with
          (mkDataFrame true
             (map (fun r => mkRow (perfil r) (Some (fill (experiencia r))) (nota r)
                              (data r)
                              (Some (sentiment_of (Some (fill (experiencia r)))))) g))
          by (symmetry; etransitivity;
              [exact (set_sentiment_classified sentiment_of m)
              | cbn [rows]; now rewrite map_map])
    end.
    rewrite !(map_map _ experiencia). cbn [experiencia].
    destruct (idxmax _) as [k|e]; cbn; rewrite <- ?app_assoc, ?app_nil_r;
      reflexivity.
Qed.

Lemma main_run df choice scr c cs :
  main 0 choice (mkState scr [df] c cs) =
  if empty df then
    (Ok tt, mkState (scr ++ [st_title title_text; st_warning [Lit no_data_text]]
                         ++ footer) [df] c cs)
  else
    match shown_profile df choice with
    | None => (Ok tt, mkState (scr ++ header df ++ ranking df ++ footer) [df] c cs)
    | Some p =>
        let pd := profile_data_of df p in
        let objects := [df; getitem_mask (fun r => eq_cell (perfil r) p) df; pd] in
        let warnings := flat_map warning_of (texts_of df p) in
        match sentiment_summary df p with
        | Ok k =>
            (Ok tt,
             mkState (scr ++ header df ++ warnings
                          ++ panels k (mean (map nota (rows pd))) (length (rows pd))
                          ++ ranking df ++ footer)
                     objects c (cs ++ texts_of df p))
        | Raise e =>
            (Raise e,
             mkState (scr ++ header df ++ warnings) objects c (cs ++ texts_of df p))
        end
    end.
Proof.
  unfold main, selectbox, shown_profile, sentiment_summary.
  unfold bind at 1. unfold emit at 1. unfold bind at 1. unfold deref at 1.
  cbn [heap nth_error screen data_cache calls].
  destruct (empty df); cbn [negb].
  - unfold bind, emit. cbn. rewrite <- !app_assoc. reflexivity.
  - unfold bind at 1. unfold bind at 1. unfold bind at 1. unfold bind at 1.
    unfold emit at 1. unfold ret at 1.
    cbn [heap nth_error screen data_cache calls].
    destruct (selected (frequent_profiles df) choice) as [p|].
    + destruct (truthy (Some p)).
      * rewrite profile_panel_run. cbv zeta.
        destruct (idxmax _) as [k|e].
        -- unfold bind, emit, deref. cbn. rewrite <- !app_assoc. reflexivity.
        -- rewrite <- !app_assoc, app_nil_r. reflexivity.
      * unfold bind, emit, deref, ret. cbn. rewrite <- !app_assoc. reflexivity.
    + cbn [truthy]. unfold bind, emit, deref, ret. cbn.
      rewrite <- !app_assoc. reflexivity.
Qed.

(** The first run of a session in which the loader fails: the script runs
    to its end and shows the error, the title, the warning and the footer. *)
Lemma script_after_failed_load e choice :
  load_failure e ->
  script choice fresh_session =
  (Ok tt,
   mkState ([st_error [Lit "Error loading data: "; Fmt_exn e];
             st_title title_text; st_warning [Lit no_data_text]] ++ footer)
           [pd_DataFrame]
           (Some (pd_DataFrame, [st_error [Lit "Error loading data: "; Fmt_exn e]]))
           []).
Proof.
  intros H. unfold script, bind, cache_data, alloc, fresh_session.
  cbn [data_cache]. rewrite (load_data_raises e _ H).
  cbn [screen heap data_cache calls app length skipn].
  now rewrite main_run.
Qed.

(** C4: when the body of the loader raises (the request fails, the status
    is not a success, or the CSV parser raises), whatever the identifier
    in the environment, present or missing, [load_data] renders an error
    message, returns the empty table and raises nothing; the run of the
    script goes on to its end. *)
Theorem load_data_failure_gives_empty_table e st
    (Hfail : load_failure e) :
  load_data st =
    (Ok pd_DataFrame,
     mkState (screen st ++ [st_error [Lit "Error loading data: "; Fmt_exn e]])
             (heap st) (data_cache st) (calls st)) /\
  empty pd_DataFrame = true /\
  (getenv "GOOGLE_DRIVE_FILE_ID" = None ->
   url = "https://drive.google.com/uc?id=None") /\
  (forall choice,
     fst (script choice fresh_session) = Ok tt /\
     In (st_error [Lit "Error loading data: "; Fmt_exn e])
        (screen (snd (script choice fresh_session)))).
Proof.
  split; [now apply load_data_raises|]. split; [reflexivity|]. split.
  - intros H. unfold url. rewrite H. reflexivity.
  - intros choice. rewrite (script_after_failed_load e choice Hfail).
    split; [reflexivity | now left].
Qed.

(** ** Counting and sorting *)

Lemma insert_desc_perm x l : Permutation (insert_desc x l) (x :: l).
Proof.
  induction l as [|y l IH]; simpl; [reflexivity|].
  destruct (snd y <=? snd x); [reflexivity|].
  rewrite IH. apply perm_swap.
Qed.

Lemma sort_desc_perm l : Permutation (sort_desc l) l.
Proof.
  induction l as [|x l IH]; simpl; [reflexivity|].
  rewrite insert_desc_perm. now constructor.
Qed.

Lemma first_max_cons x l : first_max (x :: l) = pick x (first_max l).
Proof. reflexivity. Qed.

Lemma pick_swap x y m :
  snd x < snd y -> pick y (pick x m) = pick x (pick y m).
Proof.
  intros H. destruct m as [z|]; simpl.
  - destruct (Nat.leb_spec (snd z) (snd x)); simpl;
      destruct (Nat.leb_spec (snd z) (snd y)); simpl;
      repeat (match goal with
              | |- context [?a <=? ?b] => destruct (Nat.leb_spec a b)
              end; simpl); try reflexivity; lia.
  - destruct (Nat.leb_spec (snd x) (snd y)); simpl;
      destruct (Nat.leb_spec (snd y) (snd x)); try reflexivity; lia.
Qed.

(** Sorting is stable, so it does not change which entry [first_max] finds. *)
Lemma first_max_insert_desc x l :
  first_max (insert_desc x l) = first_max (x :: l).
Proof.
  induction l as [|y l IH]; [reflexivity|].
  cbn [insert_desc].
  destruct (Nat.leb_spec (snd y) (snd x)); [reflexivity|].
  rewrite first_max_cons, IH, !first_max_cons.
  now apply pick_swap.
Qed.

Lemma first_max_sort_desc l : first_max (sort_desc l) = first_max l.
Proof.
  induction l as [|x l IH]; [reflexivity|].
  cbn [sort_desc]. rewrite first_max_insert_desc, !first_max_cons.
  now rewrite IH.
Qed.

Lemma first_max_none l : first_max l = None -> l = [].
Proof.
  destruct l as [|x l]; [reflexivity|].
  rewrite first_max_cons. destruct (first_max l) as [y|]; simpl;
    [destruct (snd y <=? snd x)|]; discriminate.
Qed.

(** The entry found is the first of the greatest ones. *)
Lemma first_max_keys (f : string -> nat) ks : forall k c,
  first_max (map (fun k => (k, f k)) ks) = Some (k, c) ->
  c = f k /\
  exists pre post,
    ks = pre ++ k :: post /\
    (forall x, In x pre -> f x < f k) /\
    (forall x, In x post -> f x <= f k).
Proof.
  induction ks as [|x ks IH]; intros k c H; [discriminate|].
  cbn [map] in H. rewrite first_max_cons in H.
  destruct (first_max (map (fun k => (k, f k)) ks)) as [[y cy]|] eqn:E.
  - destruct (IH y cy eq_refl) as (-> & pre & post & -> & Hpre & Hpost).
    cbn [pick snd] in H.
    destruct (Nat.leb_spec (f y) (f x)); inversion H; subst; clear H.
    + split; [reflexivity|]. exists [], (pre ++ y :: post).
      repeat split; [intros ? []|].
      intros z Hz. apply in_app_or in Hz. destruct Hz as [Hz|[<-|Hz]].
      * apply Hpre in Hz. lia.
      * assumption.
      * apply Hpost in Hz. lia.
    + split; [reflexivity|]. exists (x :: pre), post.
      repeat split; [|assumption].
      intros z [<-|Hz]; [assumption|now apply Hpre].
  - apply first_max_none in E. destruct ks; [|discriminate].
    inversion H; subst. split; [reflexivity|].
    exists [], []. repeat split; intros ? [].
Qed.

Lemma in_unique x l : In x (unique l) <-> In x l.
Proof.
  induction l as [|y l IH]; [reflexivity|].
  cbn [unique]. split.
  - intros [<-|H]; [now left|].
    apply in_remove in H. right. now apply IH.
  - intros [<-|H]; [now left|].
    destruct (string_dec y x) as [<-|Hne]; [now left|].
    right. apply in_in_remove; [congruence|now apply IH].
Qed.

Lemma NoDup_remove_elt (x : string) l : NoDup l -> NoDup (remove string_dec x l).
Proof.
  induction 1 as [|y l Hy Hl IH]; simpl; [constructor|].
  destruct (string_dec x y); [assumption|].
  constructor; [|assumption].
  intros H. apply in_remove in H. now destruct H.
Qed.

Lemma NoDup_unique l : NoDup (unique l).
Proof.
  induction l as [|x l IH]; cbn [unique]; constructor.
  - apply remove_In.
  - now apply NoDup_remove_elt.
Qed.

(** [unique] keeps the order of first appearance. *)
Lemma unique_first_occurrence k p q :
  ~ In k p -> exists r, unique (p ++ k :: q) = unique p ++ k :: r.
Proof.
  induction p as [|a p IH]; intros Hk.
  - eexists. reflexivity.
  - destruct IH as [r Hr]; [intros H; apply Hk; now right|].
    exists (remove string_dec a r). cbn [app unique]. rewrite Hr.
    rewrite remove_app. cbn [remove].
    destruct (string_dec a k) as [->|_]; [exfalso; apply Hk; now left|].
    reflexivity.
Qed.

Lemma split_at_first (k : string) l1 : forall l2 l3 l4,
  l1 ++ k :: l2 = l3 ++ k :: l4 -> ~ In k l1 -> ~ In k l3 -> l1 = l3.
Proof.
  induction l1 as [|a l1 IH]; intros l2 l3 l4 H H1 H3.
  - destruct l3 as [|b l3]; [reflexivity|].
    inversion H; subst. exfalso. apply H3. now left.
  - destruct l3 as [|b l3].
    + inversion H; subst. exfalso. apply H1. now left.
    + inversion H; subst. f_equal.
      eapply IH; [eassumption| |]; intros ?; [apply H1|apply H3]; now right.
Qed.

Lemma in_split_first (k : string) l :
  In k l -> exists pre post, l = pre ++ k :: post /\ ~ In k pre.
Proof.
  induction l as [|a l IH]; intros H; [destruct H|].
  destruct (string_dec a k) as [->|Hne].
  - exists [], l. split; [reflexivity|intros []].
  - destruct H as [H|H]; [contradiction|].
    destruct (IH H) as (pre & post & -> & Hpre).
    exists (a :: pre), post. split; [reflexivity|].
    intros [?|?]; [contradiction|now apply Hpre].
Qed.

Lemma count_pos k l : In k l <-> 0 < count k l.
Proof. unfold count. apply count_occ_In. Qed.

(** What [value_counts().idxmax()] returns on a column. *)
Lemma idxmax_value_counts_first_mode col k :
  idxmax (value_counts col) = Ok k -> first_mode k (dropna col).
Proof.
  unfold idxmax, value_counts. rewrite first_max_sort_desc.
  set (vals := dropna col).
  destruct (first_max _) as [[k' c]|] eqn:E; [|discriminate].
  intros H; inversion H; subst k'; clear H.
  apply first_max_keys in E.
  destruct E as (-> & pre & post & Hsplit & Hpre & Hpost).
  assert (Hin : In k vals).
  { apply in_unique. rewrite Hsplit. apply in_elt. }
  destruct (in_split_first _ _ Hin) as (pre' & post' & Hvals & Hk).
  destruct (unique_first_occurrence k pre' post' Hk) as [r Hr].
  rewrite <- Hvals, Hsplit in Hr.
  assert (Hnk : ~ In k pre).
  { pose proof (NoDup_unique vals) as Hnd. rewrite Hsplit in Hnd.
    apply NoDup_remove_2 in Hnd. intros ?. apply Hnd, in_or_app. now left. }
  assert (Hnk' : ~ In k (unique pre')) by now rewrite in_unique.
  pose proof (split_at_first k pre post (unique pre') r Hr Hnk Hnk') as ->.
  exists pre', post'. repeat split; try assumption.
  - intros k'. destruct (in_dec string_dec k' vals) as [Hk'|Hk'].
    + apply in_unique in Hk'. rewrite Hsplit in Hk'.
      apply in_app_or in Hk'. destruct Hk' as [Hk'|[<-|Hk']].
      * apply Hpre in Hk'. lia.
      * reflexivity.
      * now apply Hpost.
    + unfold count at 1. rewrite (proj1 (count_occ_not_In _ _ _) Hk'). lia.
  - intros k' Hk'. apply Hpre. now apply in_unique.
Qed.

Lemma idxmax_value_counts_defined col :
  dropna col <> [] -> exists k, idxmax (value_counts col) = Ok k.
Proof.
  intros H. unfold idxmax, value_counts. rewrite first_max_sort_desc.
  destruct (first_max _) as [[k c]|] eqn:E; [now exists k|].
  apply first_max_none in E. apply map_eq_nil in E.
  destruct (dropna col) as [|v vs]; [contradiction|discriminate].
Qed.

(** ** Eligible profiles and the ranking table *)

Lemma in_dropna {A} (v : A) col : In v (dropna col) <-> In (Some v) col.
Proof.
  induction col as [|[w|] col IH]; simpl.
  - reflexivity.
  - rewrite IH. split; (intros [H|H]; [left; congruence | now right]).
  - rewrite IH. split; [now right | intros [H|H]; [discriminate | assumption]].
Qed.

(** The count [value_counts] gives a profile is its number of rows. *)
Lemma count_perfil rs p :
  count p (dropna (map perfil rs)) = length (group rs p).
Proof.
  unfold count, group. induction rs as [|r rs IH]; [reflexivity|].
  cbn [map filter]. destruct (perfil r) as [s|]; cbn [dropna eq_cell].
  - cbn [count_occ]. destruct (String.eqb_spec s p) as [->|Hne].
    + destruct (string_dec p p); [|contradiction]. cbn [length]. now rewrite IH.
    + destruct (string_dec s p); [contradiction|assumption].
  - assumption.
Qed.

Lemma in_value_counts col k c :
  In (k, c) (value_counts col) <-> In k (dropna col) /\ c = count k (dropna col).
Proof.
  unfold value_counts. split.
  - intros H. apply (Permutation_in _ (sort_desc_perm _)) in H.
    apply in_map_iff in H. destruct H as (x & Hx & Hin).
    inversion Hx; subst. split; [now apply in_unique | reflexivity].
  - intros [Hin ->].
    apply (Permutation_in _ (Permutation_sym (sort_desc_perm _))).
    apply in_map_iff. exists k. split; [reflexivity | now apply in_unique].
Qed.

Lemma in_frequent_profiles df p :
  In p (frequent_profiles df) <-> 2 <= length (group (rows df) p).
Proof.
  unfold frequent_profiles. rewrite in_map_iff. split.
  - intros ([k c] & <- & H). apply filter_In in H. destruct H as [H Hc].
    apply in_value_counts in H. destruct H as [_ ->].
    cbn [fst snd] in *. rewrite count_perfil in Hc.
    apply Nat.ltb_lt in Hc. lia.
  - intros H. exists (p, count p (dropna (map perfil (rows df)))).
    split; [reflexivity|]. apply filter_In. split.
    + apply in_value_counts. split; [|reflexivity].
      apply count_pos. rewrite count_perfil. lia.
    + cbn [snd]. rewrite count_perfil. apply Nat.ltb_lt. lia.
Qed.

Lemma insert_key_perm x l : Permutation (insert_key x l) (x :: l).
Proof.
  induction l as [|y l IH]; simpl; [reflexivity|].
  destruct (String.leb x y); [reflexivity|].
  rewrite IH. apply perm_swap.
Qed.

Lemma sort_keys_perm l : Permutation (sort_keys l) l.
Proof.
  induction l as [|x l IH]; simpl; [reflexivity|].
  rewrite insert_key_perm. now constructor.
Qed.

Lemma insert_rank_perm x l : Permutation (insert_rank x l) (x :: l).
Proof.
  induction l as [|y l IH]; simpl; [reflexivity|].
  destruct (precedes (avg_nota x) (avg_nota y)); [reflexivity|].
  rewrite IH. apply perm_swap.
Qed.

Lemma sort_values_perm l : Permutation (sort_values l) l.
Proof.
  induction l as [|x l IH]; simpl; [reflexivity|].
  rewrite insert_rank_perm. now constructor.
Qed.

Lemma isin_In l p : isin l (Some p) = true <-> In p l.
Proof.
  cbn [isin]. rewrite existsb_exists. split.
  - intros (x & Hx & E). apply String.eqb_eq in E. now subst.
  - intros H. exists p. split; [assumption | apply String.eqb_refl].
Qed.

Lemma in_group_length rs p :
  0 < length (group rs p) <-> exists r, In r rs /\ perfil r = Some p.
Proof.
  unfold group. split.
  - destruct (filter _ rs) as [|r l] eqn:E; cbn [length]; [lia|]. intros _.
    assert (H : In r (filter (fun r => eq_cell (perfil r) p) rs))
      by (rewrite E; now left).
    apply filter_In in H. destruct H as [H1 H2]. exists r. split; [assumption|].
    destruct (perfil r) as [s|]; [|discriminate].
    cbn in H2. apply String.eqb_eq in H2. now subst.
  - intros (r & Hin & Hp).
    assert (H : In r (filter (fun r => eq_cell (perfil r) p) rs)).
    { apply filter_In. split; [assumption|]. rewrite Hp. apply String.eqb_refl. }
    destruct (filter _ rs); [destruct H | cbn [length]; lia].
Qed.

Lemma in_group_keys rs p :
  In p (group_keys rs) <-> exists r, In r rs /\ perfil r = Some p.
Proof.
  unfold group_keys. split.
  - intros H. apply (Permutation_in _ (sort_keys_perm _)) in H.
    apply in_unique, in_dropna, in_map_iff in H.
    destruct H as (r & Hr & Hin). now exists r.
  - intros (r & Hin & Hr).
    apply (Permutation_in _ (Permutation_sym (sort_keys_perm _))).
    apply in_unique, in_dropna, in_map_iff. now exists r.
Qed.

Lemma in_ranking_df df frequent p :
  In p (map r_perfil (ranking_df df frequent)) <->
  In p frequent /\ 0 < length (group (rows df) p).
Proof.
  unfold ranking_df, agg. cbn [getitem_mask rows].
  set (rs := filter _ (rows df)).
  assert (Hperm : Permutation
            (map r_perfil (sort_values
               (map (fun k => mkRank k (mean (map nota (group rs k)))
                                (length (group rs k))) (group_keys rs))))
            (group_keys rs)).
  { rewrite sort_values_perm, map_map. cbn [r_perfil]. now rewrite map_id. }
  rewrite in_group_length. split.
  - intros H. apply (Permutation_in _ Hperm), in_group_keys in H.
    destruct H as (r & Hin & Hr). apply filter_In in Hin.
    destruct Hin as [Hin Hf]. rewrite Hr in Hf. apply isin_In in Hf.
    split; [assumption | now exists r].
  - intros [Hf (r & Hin & Hr)].
    apply (Permutation_in _ (Permutation_sym Hperm)), in_group_keys.
    exists r. split; [|assumption]. apply filter_In. split; [assumption|].
    rewrite Hr. now apply isin_In.
Qed.

(** C2: in a non-empty table, the select box is rendered with the list
    [frequent_profiles] and a render that runs to its end shows the table
    [ranking_df]; a profile with exactly one row is neither in that list nor
    in that table, and a profile with two rows or more is in both. *)
Theorem eligible_profiles_have_two_rows df choice p st
    (Hheap : heap st = [df]) (Hdata : empty df = false) :
  In (st_selectbox selectbox_label (frequent_profiles df) selectbox_help)
     (screen (snd (main 0 choice st))) /\
  (fst (main 0 choice st) = Ok tt ->
   In (st_dataframe (ranking_df df (frequent_profiles df)))
      (screen (snd (main 0 choice st)))) /\
  (length (group (rows df) p) = 1 ->
   ~ In p (frequent_profiles df) /\
   ~ In p (map r_perfil (ranking_df df (frequent_profiles df)))) /\
  (2 <= length (group (rows df) p) ->
   In p (frequent_profiles df) /\
   In p (map r_perfil (ranking_df df (frequent_profiles df)))).
Proof.
  assert (Hsel : forall scr l,
            In (st_selectbox selectbox_label (frequent_profiles df) selectbox_help)
               (scr ++ header df ++ l)).
  { intros scr l. apply in_or_app. right. cbn. right. now left. }
  assert (Hrank : forall l,
            In (st_dataframe (ranking_df df (frequent_profiles df)))
               (l ++ ranking df ++ footer)).
  { intros l. apply in_or_app. right. cbn. right. now left. }
  destruct st as [scr h c cs]. cbn [heap] in Hheap. subst h.
  rewrite main_run, Hdata.
  split; [|split; [|split]].
  - destruct (shown_profile df choice) as [q|]; [|apply Hsel].
    cbv zeta. destruct (sentiment_summary df q); cbn [snd screen]; apply Hsel.
  - destruct (shown_profile df choice) as [q|].
    + cbv zeta. destruct (sentiment_summary df q); cbn [fst snd screen];
        [intros _ | discriminate].
      rewrite !app_assoc. rewrite <- (app_assoc _ (ranking df)). apply Hrank.
    + intros _. cbn [snd screen]. rewrite app_assoc. apply Hrank.
  - intros H1. rewrite in_ranking_df, in_frequent_profiles. lia.
  - intros H2. rewrite in_ranking_df, in_frequent_profiles. lia.
Qed.

Lemma precedes_total a b : precedes a b = false -> precedes b a = true.
Proof.
  destruct a as [x|], b as [y|]; cbn; try congruence.
  intros H. apply Qle_bool_iff. apply Qlt_le_weak, Qnot_le_lt.
  intros Hle. apply Qle_bool_iff in Hle. congruence.
Qed.

Lemma insert_rank_sorted x l :
  Sorted ranked_before l -> Sorted ranked_before (insert_rank x l).
Proof.
  induction 1 as [|y l Hl IH Hy]; cbn [insert_rank].
  - repeat constructor.
  - destruct (precedes (avg_nota x) (avg_nota y)) eqn:E.
    + repeat constructor; assumption.
    + constructor; [assumption|].
      destruct l as [|z l]; cbn [insert_rank].
      * constructor. now apply precedes_total.
      * destruct (precedes (avg_nota x) (avg_nota z)).
        -- constructor. now apply precedes_total.
        -- constructor. now inversion Hy.
Qed.

Lemma sort_values_sorted l : Sorted ranked_before (sort_values l).
Proof.
  induction l as [|x l IH]; cbn [sort_values]; [constructor|].
  now apply insert_rank_sorted.
Qed.

Lemma Sorted_adjacent {A} (R : A -> A -> Prop) pre a b post :
  Sorted R (pre ++ a :: b :: post) -> R a b.
Proof.
  induction pre as [|x pre IH]; cbn [app]; intros H.
  - inversion H as [|? ? _ Hd]; subst. now inversion Hd.
  - inversion H; subst. now apply IH.
Qed.

(** C3, as the code has it: of two adjacent rows of the ranking table, when
    the later one has a mean rating the earlier one has a mean rating too,
    which is greater or equal; rows whose mean is NaN come last. *)
Theorem ranking_sorted_nan_last df pre r1 r2 post b
    (Hadj : ranking_df df (frequent_profiles df) = pre ++ r1 :: r2 :: post)
    (Hb : avg_nota r2 = Some b) :
  exists a, avg_nota r1 = Some a /\ (b <= a)%Q.
Proof.
  pose proof (sort_values_sorted
    (agg (rows (getitem_mask (fun r => isin (frequent_profiles df) (perfil r)) df))))
    as H.
  fold (ranking_df df (frequent_profiles df)) in H. rewrite Hadj in H.
  apply Sorted_adjacent in H. unfold ranked_before in H. rewrite Hb in H.
  destruct (avg_nota r1) as [a|]; [|discriminate].
  exists a. split; [reflexivity|]. now apply Qle_bool_iff.
Qed.

(** ** The render of a selected profile *)

Lemma main_heap_state st df :
  heap st = [df] -> st = mkState (screen st) [df] (data_cache st) (calls st).
Proof. destruct st; cbn; now intros ->. Qed.

Lemma shown_profile_frequent df choice p :
  shown_profile df choice = Some p -> In p (frequent_profiles df) /\ p <> "".
Proof.
  unfold shown_profile, selected.
  destruct (nth_error (frequent_profiles df) choice) as [q|] eqn:E.
  - cbn [truthy]. destruct (String.eqb_spec q ""); cbn [negb]; [discriminate|].
    intros H; inversion H; subst. split; [|assumption].
    eapply nth_error_In; eassumption.
  - destruct (frequent_profiles df) as [|q l]; cbn [hd_error]; [discriminate|].
    cbn [truthy]. destruct (String.eqb_spec q ""); cbn [negb]; [discriminate|].
    intros H; inversion H; subst. split; [now left | assumption].
Qed.

Lemma shown_profile_rows df choice p :
  shown_profile df choice = Some p ->
  2 <= length (group (rows df) p) /\ empty df = false.
Proof.
  intros H. apply shown_profile_frequent in H. destruct H as [H _].
  apply in_frequent_profiles in H. split; [assumption|].
  unfold empty, group in *. destruct (rows df); [cbn in H; lia | reflexivity].
Qed.

Lemma profile_data_buckets df p :
  dropna (map sentiment_experiencia (rows (profile_data_of df p))) =
  per_row_buckets df p.
Proof.
  unfold profile_data_of, per_row_buckets. cbn [rows]. rewrite map_map.
  cbn [sentiment_experiencia]. destruct (has_sentiment df).
  - reflexivity.
  - induction (group (rows df) p) as [|r l IH]; cbn; [reflexivity|now rewrite IH].
Qed.

(** A table without a sentiment column of its own gives every row of a
    shown profile a bucket. *)
Lemma per_row_buckets_classified df choice p :
  has_sentiment df = false -> shown_profile df choice = Some p ->
  per_row_buckets df p <> [].
Proof.
  intros Hs H. apply shown_profile_rows in H. destruct H as [H _].
  unfold per_row_buckets. rewrite Hs.
  destruct (group (rows df) p); [cbn in H; lia | discriminate].
Qed.

Lemma main_run_shown df choice p k st :
  heap st = [df] -> shown_profile df choice = Some p ->
  sentiment_summary df p = Ok k ->
  main 0 choice st =
  (Ok tt,
   mkState (screen st ++ header df ++ flat_map warning_of (texts_of df p)
              ++ panels k (mean (map nota (rows (profile_data_of df p))))
                        (length (rows (profile_data_of df p)))
              ++ ranking df ++ footer)
           [df; getitem_mask (fun r => eq_cell (perfil r) p) df; profile_data_of df p]
           (data_cache st) (calls st ++ texts_of df p)).
Proof.
  intros Hheap Hsel Hk. rewrite (main_heap_state st df Hheap) at 1.
  rewrite main_run, Hsel, (proj2 (shown_profile_rows df choice p Hsel)).
  cbv zeta. now rewrite Hk.
Qed.

(** C7, as the code has it: for a shown profile that has at least one
    non-missing per-row bucket, as every shown profile has when the loaded
    table carries no 'sentiment_experiencia' column of its own, the
    sentiment panel displays the most frequent of its per-row buckets; among
    buckets of the same highest count it displays the one met first in row
    order. *)
Theorem sentiment_summary_is_first_mode df choice p st
    (Hheap : heap st = [df])
    (Hsel : shown_profile df choice = Some p)
    (Hbuckets : has_sentiment df = false \/ per_row_buckets df p <> []) :
  exists k,
    first_mode k (per_row_buckets df p) /\
    fst (main 0 choice st) = Ok tt /\
    screen (snd (main 0 choice st)) =
      screen st ++ header df ++ flat_map warning_of (texts_of df p)
        ++ panels k (mean (map nota (rows (profile_data_of df p))))
                  (length (rows (profile_data_of df p)))
        ++ ranking df ++ footer.
Proof.
  assert (Hrows : per_row_buckets df p <> []).
  { destruct Hbuckets as [Hcol|H]; [|exact H].
    now apply (per_row_buckets_classified df choice p). }
  rewrite <- profile_data_buckets in Hrows.
  destruct (idxmax_value_counts_defined _ Hrows) as [k Hk].
  exists k. split.
  - rewrite <- profile_data_buckets. now apply idxmax_value_counts_first_mode.
  - rewrite (main_run_shown df choice p k st Hheap Hsel Hk). now split.
Qed.

(** C6: the texts handed to the classifier for a shown profile are the
    texts of its rows, in row order, with the placeholder in the place of
    every missing text; none of them is null, and the column of the
    processed copy holds the same texts. *)
Theorem missing_text_replaced_before_classification df choice p st
    (Hheap : heap st = [df])
    (Hsel : shown_profile df choice = Some p) :
  exists texts pd,
    calls (snd (main 0 choice st)) = calls st ++ texts /\
    Forall (fun t => t <> None) texts /\
    (has_sentiment df = false ->
     texts = map (fun r => match experiencia r with
                           | Some s => Some s
                           | None => Some "No content"
                           end) (group (rows df) p)) /\
    nth_error (heap (snd (main 0 choice st))) 2 = Some pd /\
    map experiencia (rows pd) =
      map (fun r => match experiencia r with
                    | Some s => Some s
                    | None => Some "No content"
                    end) (group (rows df) p).
Proof.
  exists (texts_of df p), (profile_data_of df p).
  rewrite (main_heap_state st df Hheap) at 1 3.
  rewrite main_run, Hsel, (proj2 (shown_profile_rows df choice p Hsel)).
  cbv zeta.
  assert (Hfill : forall r, Some (fill (experiencia r)) =
                            match experiencia r with
                            | Some s => Some s
                            | None => Some "No content"
                            end)
    by (intros r; destruct (experiencia r); reflexivity).
  assert (Htexts : Forall (fun t : option string => t <> None) (texts_of df p)).
  { unfold texts_of. destruct (has_sentiment df); [constructor|].
    apply Forall_forall. intros t Ht. apply in_map_iff in Ht.
    destruct Ht as (r & <- & _). discriminate. }
  assert (Hcol : map experiencia (rows (profile_data_of df p)) =
                 map (fun r => match experiencia r with
                               | Some s => Some s
                               | None => Some "No content"
                               end) (group (rows df) p)).
  { unfold profile_data_of. cbn [rows]. rewrite map_map. cbn [experiencia].
    apply map_ext. exact Hfill. }
  assert (Hno : has_sentiment df = false ->
                texts_of df p = map (fun r => match experiencia r with
                                              | Some s => Some s
                                              | None => Some "No content"
                                              end) (group (rows df) p)).
  { intros Hs. unfold texts_of. rewrite Hs. apply map_ext. exact Hfill. }
  destruct (sentiment_summary df p); cbn [snd calls heap nth_error];
    repeat split; assumption.
Qed.

Lemma main_calls df choice st :
  heap st = [df] ->
  calls (snd (main 0 choice st)) = calls st ++ render_texts df choice.
Proof.
  intros Hheap. rewrite (main_heap_state st df Hheap) at 1. rewrite main_run.
  unfold render_texts.
  destruct (empty df); [cbn; now rewrite app_nil_r|].
  destruct (shown_profile df choice) as [p|]; [|cbn; now rewrite app_nil_r].
  cbv zeta. now destruct (sentiment_summary df p).
Qed.

(** A render that hands a text to the classifier shows a profile and finds
    its majority bucket. *)
Lemma main_classifies df choice st texts text :
  heap st = [df] ->
  calls (snd (main 0 choice st)) = calls st ++ texts ->
  In text texts ->
  exists p k,
    shown_profile df choice = Some p /\ texts = texts_of df p /\
    sentiment_summary df p = Ok k.
Proof.
  intros Hheap Hcalls Hin. rewrite (main_calls df choice st Hheap) in Hcalls.
  apply app_inv_head in Hcalls. subst texts. unfold render_texts in *.
  destruct (empty df); [destruct Hin|].
  destruct (shown_profile df choice) as [p|]; [|destruct Hin].
  unfold sentiment_summary.
  destruct (idxmax_value_counts_defined
              (map sentiment_experiencia (rows (profile_data_of df p))))
    as [k Hk].
  - rewrite profile_data_buckets. unfold per_row_buckets, texts_of in *.
    destruct (has_sentiment df); [destruct Hin|].
    destruct (group (rows df) p); [destruct Hin | discriminate].
  - exists p, k. now repeat split.
Qed.

(** C5: when the classifier raises on a text, [analyze_sentiment] renders a
    warning and returns the bare text "NEUTRAL", which is none of the three
    buckets; a render that classifies such a text still runs to its end and
    shows the warning and the ranking table. *)
Theorem classifier_failure_falls_back text e st
    (Hraise : sentiment_pipeline text = Raise e) :
  analyze_sentiment text st =
    (Ok "NEUTRAL",
     mkState (screen st ++ [warning text e]) (heap st) (data_cache st)
             (calls st ++ [text])) /\
  "NEUTRAL" <> BAD /\ "NEUTRAL" <> NEUTRAL /\ "NEUTRAL" <> GOOD /\
  (forall df choice st0 texts,
     heap st0 = [df] ->
     calls (snd (main 0 choice st0)) = calls st0 ++ texts ->
     In text texts ->
     fst (main 0 choice st0) = Ok tt /\
     In (warning text e) (screen (snd (main 0 choice st0))) /\
     In (st_dataframe (ranking_df df (frequent_profiles df)))
        (screen (snd (main 0 choice st0)))).
Proof.
  split; [|split; [|split; [|split]]]; try discriminate.
  - rewrite analyze_sentiment_run. unfold sentiment_of, warning_of.
    now rewrite Hraise.
  - intros df choice st0 texts Hheap Hcalls Hin.
    destruct (main_classifies df choice st0 texts text Hheap Hcalls Hin)
      as (p & k & Hsel & -> & Hk).
    rewrite (main_run_shown df choice p k st0 Hheap Hsel Hk).
    cbn [fst snd screen]. split; [reflexivity|]. split.
    + apply in_or_app. right. apply in_or_app. right. apply in_or_app. left.
      apply in_flat_map. exists text. split; [assumption|].
      unfold warning_of. rewrite Hraise. now left.
    + do 4 (apply in_or_app; right). cbn. right. now left.
Qed.

(** ** Reruns in one session *)

Lemma main_cache df choice st :
  heap st = [df] -> data_cache (snd (main 0 choice st)) = data_cache st.
Proof.
  intros Hheap. rewrite (main_heap_state st df Hheap) at 1. rewrite main_run.
  destruct (empty df); [reflexivity|].
  destruct (shown_profile df choice) as [p|]; [|reflexivity].
  cbv zeta. now destruct (sentiment_summary df p).
Qed.

(** A rerun with a filled cache renders the cached table again. *)
Lemma rerun_cached st choice d els :
  data_cache st = Some (d, els) ->
  rerun choice st = main 0 choice (mkState els [d] (Some (d, els)) (calls st)).
Proof.
  intros Hc. unfold rerun, script, new_run, bind, cache_data, alloc.
  cbn [data_cache heap screen calls length app]. now rewrite Hc.
Qed.

(** Every rerun hands the texts of the shown profile to the classifier
    again: nothing a render computed is kept for the next one. *)
Lemma rerun_calls st choice d els :
  data_cache st = Some (d, els) ->
  calls (snd (rerun choice st)) = calls st ++ render_texts d choice /\
  data_cache (snd (rerun choice st)) = Some (d, els).
Proof.
  intros Hc. rewrite (rerun_cached st choice d els Hc). split.
  - now rewrite (main_calls d choice).
  - now rewrite (main_cache d choice).
Qed.

Lemma rerun_twice_calls st choice d els :
  data_cache st = Some (d, els) ->
  calls (snd (rerun choice (snd (rerun choice st)))) =
  calls st ++ render_texts d choice ++ render_texts d choice.
Proof.
  intros Hc. destruct (rerun_calls st choice d els Hc) as [H1 H2].
  destruct (rerun_calls _ choice d els H2) as [H3 _].
  now rewrite H3, H1, app_assoc.
Qed.

(** C9: for an empty table the render consists of the title, the warning
    and the footer; no select box, no panel and no ranking table is
    rendered, no object is created and the classifier is not called.  The
    same holds for a whole run of the script on a cached empty table. *)
Theorem empty_table_renders_warning_only df choice st
    (Hheap : heap st = [df]) (Hempty : empty df = true) :
  exists rendered,
    main 0 choice st =
      (Ok tt, mkState (screen st ++ rendered) [df] (data_cache st) (calls st)) /\
    rendered = [st_title title_text; st_warning [Lit no_data_text];
                st_markdown [Lit "---"]; st_markdown [Lit "Developed by zLobo"]] /\
    existsb needs_data rendered = false /\
    (forall session els,
       data_cache session = Some (df, els) ->
       rerun choice session =
         (Ok tt, mkState (els ++ rendered) [df] (Some (df, els)) (calls session))).
Proof.
  eexists. split; [|split; [reflexivity|split; [reflexivity|]]].
  - rewrite (main_heap_state st df Hheap) at 1. now rewrite main_run, Hempty.
  - intros session els Hc. rewrite (rerun_cached session choice df els Hc).
    now rewrite main_run, Hempty.
Qed.

(** C10: a render leaves the loaded table as it was; the processed rows of
    the shown profile are another object; and the ranking table a render
    shows is the one computed from the loaded table. *)
Theorem loaded_table_is_not_modified df choice st
    (Hheap : heap st = [df]) :
  nth_error (heap (snd (main 0 choice st))) 0 = Some df /\
  (forall p, shown_profile df choice = Some p ->
     nth_error (heap (snd (main 0 choice st))) 2 = Some (profile_data_of df p)) /\
  (forall t, In (st_dataframe t) (screen (snd (main 0 choice st))) ->
     In (st_dataframe t) (screen st) \/
     t = ranking_df df (frequent_profiles df)).
Proof.
  destruct st as [scr h c cs]. cbn [heap] in Hheap. subst h.
  cbn [screen]. rewrite main_run.
  assert (Hpanel : forall t k a n, ~ In (st_dataframe t) (panels k a n)).
  { intros t k a n H. cbn in H. repeat destruct H as [H|H]; try discriminate H.
    exact H. }
  assert (Hwarn : forall t l, ~ In (st_dataframe t) (flat_map warning_of l)).
  { intros t l H. apply in_flat_map in H. destruct H as (x & _ & H).
    unfold warning_of, warning in H.
    destruct (sentiment_pipeline x) as [[|]|]; cbn in H;
      repeat destruct H as [H|H]; try discriminate H; exact H. }
  assert (Hrank : forall t, In (st_dataframe t) (ranking df ++ footer) ->
                            t = ranking_df df (frequent_profiles df)).
  { intros t H. cbn in H. repeat destruct H as [H|H]; try discriminate H.
    - now inversion H.
    - destruct H. }
  assert (Hhead : forall t, ~ In (st_dataframe t) (header df)).
  { intros t H. cbn in H. repeat destruct H as [H|H]; try discriminate H.
    exact H. }
  destruct (empty df) eqn:Hempty.
  - cbn [snd heap screen nth_error]. split; [reflexivity|]. split.
    + intros p Hp. apply shown_profile_rows in Hp. destruct Hp; congruence.
    + intros t H. apply in_app_or in H. destruct H as [H|H]; [now left|].
      cbn in H. repeat destruct H as [H|H]; try discriminate H. destruct H.
  - destruct (shown_profile df choice) as [p|].
    + cbv zeta. destruct (sentiment_summary df p) as [k|e];
        cbn [snd heap screen nth_error]; (split; [reflexivity|]); split.
      * intros q Hq. now inversion Hq.
      * intros t H. repeat (apply in_app_or in H; destruct H as [H|H]);
          try (now left); try (now apply Hhead in H); try (now apply Hwarn in H);
          try (now apply Hpanel in H).
        right. apply Hrank. apply in_or_app. now left.
        right. apply Hrank. apply in_or_app. now right.
      * intros q Hq. now inversion Hq.
      * intros t H. repeat (apply in_app_or in H; destruct H as [H|H]);
          try (now left); try (now apply Hhead in H); try (now apply Hwarn in H).
    + cbn [snd heap screen nth_error]. split; [reflexivity|]. split.
      * intros p Hp. discriminate.
      * intros t H. repeat (apply in_app_or in H; destruct H as [H|H]);
          try (now left); try (now apply Hhead in H).
        right. apply Hrank. apply in_or_app. now left.
        right. apply Hrank. apply in_or_app. now right.
Qed.

(** ** Further properties: the loader *)

Lemma load_data_frame st :
  exists d els,
    load_data st =
    (Ok d, mkState (screen st ++ els) (heap st) (data_cache st) (calls st)).
Proof.
  unfold load_data, try_except, bind, lift, emit, ret. fold url.
  destruct (requests_get url) as [r|e]; [|now exists pd_DataFrame; eexists].
  destruct (raise_for_status r) as [[]|e]; [|now exists pd_DataFrame; eexists].
  destruct (read_csv (text r)) as [d|e]; [|now exists pd_DataFrame; eexists].
  exists d, []. rewrite app_nil_r. now destruct st.
Qed.

(** X1: the loader never raises.  Either the request, the status check and
    the parser all succeed, and it returns the parsed table and renders
    nothing; or one of them raises, and it returns the empty table and
    renders one error message. *)
Theorem load_data_returns_table_or_reports st :
  (exists response d,
     requests_get url = Ok response /\ raise_for_status response = Ok tt /\
     read_csv (text response) = Ok d /\ load_data st = (Ok d, st)) \/
  (exists e,
     load_failure e /\
     load_data st =
       (Ok pd_DataFrame,
        mkState (screen st ++ [st_error [Lit "Error loading data: "; Fmt_exn e]])
                (heap st) (data_cache st) (calls st))).
Proof.
  destruct (requests_get url) as [r|e] eqn:Hget.
  - destruct (raise_for_status r) as [[]|e] eqn:Hst.
    + destruct (read_csv (text r)) as [d|e] eqn:Hcsv.
      * left. exists r, d. repeat split; try assumption.
        unfold load_data, try_except, bind, lift. fold url.
        now rewrite Hget, Hst, Hcsv.
      * right. exists e.
        assert (H : load_failure e) by (eapply parse_error; eassumption).
        split; [exact H | now apply load_data_raises].
    + right. exists e.
      assert (H : load_failure e) by (eapply bad_status; eassumption).
      split; [exact H | now apply load_data_raises].
  - right. exists e.
    assert (H : load_failure e) by now apply network_error.
    split; [exact H | now apply load_data_raises].
Qed.

(** ** Further properties: the classifier adapter *)

Lemma bucket_of_label_cases l :
  In (bucket_of_label l) [BAD; NEUTRAL; GOOD].
Proof.
  unfold bucket_of_label.
  destruct (contains "1 star" l || contains "2 stars" l); [now left|].
  destruct (contains "3 stars" l); [right; now left | right; right; now left].
Qed.

(** X4: [analyze_sentiment] never raises and calls the classifier exactly
    once.  It returns one of the three buckets and renders nothing, or it
    returns "NEUTRAL" and renders one warning. *)
Theorem analyze_sentiment_never_raises text st :
  exists b,
    fst (analyze_sentiment text st) = Ok b /\
    calls (snd (analyze_sentiment text st)) = calls st ++ [text] /\
    heap (snd (analyze_sentiment text st)) = heap st /\
    ((In b [BAD; NEUTRAL; GOOD] /\
      screen (snd (analyze_sentiment text st)) = screen st) \/
     (b = "NEUTRAL" /\
      exists e, screen (snd (analyze_sentiment text st)) =
                screen st ++ [warning text e])).
Proof.
  rewrite analyze_sentiment_run. exists (sentiment_of text).
  cbn [fst snd calls heap screen]. repeat split.
  unfold sentiment_of, warning_of.
  destruct (sentiment_pipeline text) as [[|p r]|e].
  - right. split; [reflexivity | eexists; reflexivity].
  - left. split; [apply bucket_of_label_cases | apply app_nil_r].
  - right. split; [reflexivity | eexists; reflexivity].
Qed.

(** X5: when the classifier answers with an empty list, [result[0]] raises
    inside the [try]: the adapter returns "NEUTRAL" and renders a warning
    that carries the IndexError. *)
Theorem analyze_sentiment_empty_answer text st
    (Hempty : sentiment_pipeline text = Ok []) :
  analyze_sentiment text st =
    (Ok "NEUTRAL",
     mkState (screen st ++
                [warning text (mkExn "IndexError" "list index out of range")])
             (heap st) (data_cache st) (calls st ++ [text])).
Proof.
  rewrite analyze_sentiment_run. unfold sentiment_of, warning_of.
  now rewrite Hempty.
Qed.

Lemma prefix_occurs a : forall s,
  prefix a s = true <-> exists post, s = (a ++ post)%string.
Proof.
  induction a as [|c a IH]; intros s.
  - split; [intros _; now exists s | intros _; now destruct s].
  - destruct s as [|d s]; cbn [prefix].
    + split; [discriminate | intros [post H]; discriminate H].
    + destruct (Ascii.ascii_dec c d) as [->|Hne].
      * rewrite IH. split; intros [post H]; exists post.
        -- cbn. now rewrite H.
        -- cbn in H. now inversion H.
      * split; [discriminate|]. intros [post H]. cbn in H.
        inversion H. congruence.
Qed.

(** [contains] decides [occurs_in]. *)
Lemma contains_occurs sub : forall s,
  contains sub s = true <-> occurs_in sub s.
Proof.
  unfold occurs_in. induction s as [|c s IH]; cbn [contains].
  - destruct (prefix sub "") eqn:E.
    + split; [intros _|reflexivity]. apply prefix_occurs in E.
      destruct E as [post E]. exists "", post. exact E.
    + split; [discriminate|]. intros (pre & post & H).
      destruct pre; [|discriminate H]. cbn in H.
      assert (prefix sub "" = true) by (apply prefix_occurs; now exists post).
      congruence.
  - destruct (prefix sub (String c s)) eqn:E.
    + split; [intros _|reflexivity]. apply prefix_occurs in E.
      destruct E as [post E]. exists "", post. exact E.
    + rewrite IH. split.
      * intros (pre & post & ->). exists (String c pre), post. reflexivity.
      * intros (pre & post & H). destruct pre as [|d pre].
        -- cbn in H.
           assert (prefix sub (String c s) = true)
             by (apply prefix_occurs; now exists post).
           congruence.
        -- cbn in H. inversion H. now exists pre, post.
Qed.

(** X6: the mapping of lines 47-52 goes by what the label contains, in this
    order: a label containing "1 star" or "2 stars" is BAD; otherwise a
    label containing "3 stars" is NEUTRAL; every other label, whatever it
    is, is GOOD. *)
Theorem bucket_of_label_by_content l :
  (bucket_of_label l = BAD <->
   occurs_in "1 star" l \/ occurs_in "2 stars" l) /\
  (bucket_of_label l = NEUTRAL <->
   ~ (occurs_in "1 star" l \/ occurs_in "2 stars" l) /\ occurs_in "3 stars" l) /\
  (bucket_of_label l = GOOD <->
   ~ occurs_in "1 star" l /\ ~ occurs_in "2 stars" l /\ ~ occurs_in "3 stars" l).
Proof.
  unfold bucket_of_label.
  rewrite <- !contains_occurs.
  destruct (contains "1 star" l), (contains "2 stars" l),
    (contains "3 stars" l); cbn [orb];
    repeat split; intros; try discriminate;
    repeat match goal with
           | H : _ /\ _ |- _ => destruct H
           | H : _ \/ _ |- _ => destruct H
           | H : ~ _ |- _ => (exfalso; apply H; now auto)
           end;
    try discriminate; try reflexivity; auto; try (intros [?|?]; discriminate).
Qed.

(** ** Further properties: the select box and the ranking table *)

Lemma insert_desc_strongly_sorted x l :
  StronglySorted (fun a b : string * nat => snd b <= snd a) l ->
  StronglySorted (fun a b : string * nat => snd b <= snd a) (insert_desc x l).
Proof.
  induction 1 as [|y l Hl IH Hy]; cbn [insert_desc].
  - repeat constructor.
  - destruct (Nat.leb_spec (snd y) (snd x)).
    + constructor; [now constructor|]. constructor; [assumption|].
      eapply Forall_impl; [|exact Hy]. cbn. intros z Hz. lia.
    + constructor; [assumption|].
      apply (Permutation_Forall (Permutation_sym (insert_desc_perm x l))).
      constructor; [lia | assumption].
Qed.

Lemma sort_desc_strongly_sorted l :
  StronglySorted (fun a b : string * nat => snd b <= snd a) (sort_desc l).
Proof.
  induction l as [|x l IH]; cbn [sort_desc]; [constructor|].
  now apply insert_desc_strongly_sorted.
Qed.

Lemma StronglySorted_filter {A} (R : A -> A -> Prop) (f : A -> bool) l :
  StronglySorted R l -> StronglySorted R (filter f l).
Proof.
  induction 1 as [|x l Hl IH Hx]; cbn [filter]; [constructor|].
  destruct (f x); [|assumption].
  constructor; [assumption|].
  apply Forall_forall. intros y Hy. apply filter_In in Hy.
  rewrite Forall_forall in Hx. now apply Hx.
Qed.

Lemma StronglySorted_keys (F : string -> nat) l :
  Forall (fun kc : string * nat => snd kc = F (fst kc)) l ->
  StronglySorted (fun a b : string * nat => snd b <= snd a) l ->
  StronglySorted (fun p q => F q <= F p) (map fst l).
Proof.
  intros HF Hs. induction Hs as [|x l Hl IH Hx]; cbn [map]; [constructor|].
  inversion HF as [|? ? Hx' HF']; subst.
  constructor; [now apply IH|].
  apply Forall_forall. intros q Hq. apply in_map_iff in Hq.
  destruct Hq as (y & <- & Hy).
  rewrite Forall_forall in Hx, HF'.
  rewrite <- Hx', <- (HF' y Hy). now apply Hx.
Qed.

Lemma NoDup_keys_filter (f : string * nat -> bool) l :
  NoDup (map fst l) -> NoDup (map fst (filter f l)).
Proof.
  induction l as [|x l IH]; cbn [map filter]; [trivial|].
  intros H. inversion H as [|? ? Hx Hl]; subst.
  destruct (f x); [|now apply IH].
  cbn [map]. constructor; [|now apply IH].
  intros Hin. apply Hx. apply in_map_iff in Hin.
  destruct Hin as (y & Hy & Hin). apply filter_In in Hin.
  apply in_map_iff. exists y. now split.
Qed.

Lemma NoDup_frequent_profiles df : NoDup (frequent_profiles df).
Proof.
  unfold frequent_profiles, value_counts.
  set (vals := dropna (map perfil (rows df))).
  set (counted := map (fun k => (k, count k vals)) (unique vals)).
  apply NoDup_keys_filter.
  apply (Permutation_NoDup
           (Permutation_map fst (Permutation_sym (sort_desc_perm counted)))).
  unfold counted. rewrite map_map. cbn [fst]. rewrite map_id.
  apply NoDup_unique.
Qed.

(** X7: the options of the select box are pairwise distinct and listed by
    decreasing number of feedback rows: a profile listed earlier has at
    least as many rows as any profile listed later. *)
Theorem frequent_profiles_distinct_by_decreasing_count df :
  NoDup (frequent_profiles df) /\
  StronglySorted
    (fun p q => length (group (rows df) q) <= length (group (rows df) p))
    (frequent_profiles df).
Proof.
  unfold frequent_profiles, value_counts.
  set (vals := dropna (map perfil (rows df))).
  set (counted := map (fun k => (k, count k vals)) (unique vals)).
  split.
  - apply (NoDup_frequent_profiles df).
  - apply StronglySorted_keys.
    + apply Forall_forall. intros [k c] H. apply filter_In in H.
      destruct H as [H _].
      apply (Permutation_in _ (sort_desc_perm counted)) in H.
      apply in_map_iff in H. destruct H as (k' & Hk & _).
      inversion Hk; subst. cbn [fst snd]. apply count_perfil.
    + apply StronglySorted_filter, sort_desc_strongly_sorted.
Qed.

Lemma ranking_profiles_perm df frequent :
  Permutation (map r_perfil (ranking_df df frequent))
    (group_keys (filter (fun r => isin frequent (perfil r)) (rows df))).
Proof.
  unfold ranking_df, agg. cbn [getitem_mask rows].
  rewrite sort_values_perm, map_map. cbn [r_perfil]. now rewrite map_id.
Qed.

(** X8: the ranking table has exactly one row for each option of the
    select box: its profiles are a rearrangement of the eligible profiles. *)
Theorem ranking_has_one_row_per_eligible_profile df :
  Permutation (map r_perfil (ranking_df df (frequent_profiles df)))
              (frequent_profiles df) /\
  length (ranking_df df (frequent_profiles df)) = length (frequent_profiles df).
Proof.
  assert (H : Permutation (map r_perfil (ranking_df df (frequent_profiles df)))
                (frequent_profiles df)).
  { apply NoDup_Permutation.
    - apply (Permutation_NoDup
               (Permutation_sym (ranking_profiles_perm df (frequent_profiles df)))).
      unfold group_keys.
      apply (Permutation_NoDup (Permutation_sym (sort_keys_perm _))).
      apply NoDup_unique.
    - apply NoDup_frequent_profiles.
    - intros p. rewrite in_ranking_df, in_frequent_profiles. lia. }
  split; [exact H|].
  apply Permutation_length in H. now rewrite length_map in H.
Qed.

Lemma filter_filter_weaker {A} (f g : A -> bool) l :
  (forall x, In x l -> f x = true -> g x = true) ->
  filter f (filter g l) = filter f l.
Proof.
  induction l as [|x l IH]; intros H; [reflexivity|].
  cbn [filter]. rewrite <- IH by (intros y Hy; apply H; now right).
  destruct (g x) eqn:Eg; [reflexivity|].
  destruct (f x) eqn:Ef; [|now rewrite IH by (intros y Hy; apply H; now right)].
  rewrite (H x (or_introl eq_refl) Ef) in Eg. discriminate.
Qed.

(** Restricting the table to the eligible profiles keeps the rows of each
    of them. *)
Lemma group_of_eligible df frequent k :
  In k frequent ->
  group (filter (fun r => isin frequent (perfil r)) (rows df)) k =
  group (rows df) k.
Proof.
  intros Hk. unfold group. apply filter_filter_weaker.
  intros r _ Hr. destruct (perfil r) as [q|]; [|discriminate].
  cbn [eq_cell] in Hr. apply String.eqb_eq in Hr. subst q.
  now apply isin_In.
Qed.

Lemma in_agg_eligible df r :
  In r (ranking_df df (frequent_profiles df)) <->
  In (r_perfil r) (frequent_profiles df) /\
  r = mkRank (r_perfil r) (mean (map nota (group (rows df) (r_perfil r))))
             (length (group (rows df) (r_perfil r))).
Proof.
  unfold ranking_df, agg. cbn [getitem_mask rows].
  set (rs := filter _ (rows df)). split.
  - intros H. apply (Permutation_in _ (sort_values_perm _)) in H.
    apply in_map_iff in H. destruct H as (k & <- & Hk). cbn [r_perfil].
    apply in_group_keys in Hk. destruct Hk as (x & Hx & Hp).
    apply filter_In in Hx. destruct Hx as [_ Hx]. rewrite Hp in Hx.
    apply isin_In in Hx. split; [assumption|].
    unfold rs. now rewrite (group_of_eligible df _ k Hx).
  - intros [Hk Hr].
    apply (Permutation_in _ (Permutation_sym (sort_values_perm _))).
    apply in_map_iff. exists (r_perfil r). split.
    + unfold rs. rewrite (group_of_eligible df _ _ Hk). now symmetry.
    + apply in_group_keys.
      pose proof (proj1 (in_frequent_profiles df _) Hk) as Hlen.
      assert (H0 : 0 < length (group (rows df) (r_perfil r))) by lia.
      apply in_group_length in H0. destruct H0 as (x & Hx & Hp).
      exists x. split; [|assumption]. apply filter_In. split; [assumption|].
      rewrite Hp. now apply isin_In.
Qed.

Lemma dropna_nil {A} (col : list (option A)) :
  dropna col = [] <-> forall c, In c col -> c = None.
Proof.
  induction col as [|[v|] col IH]; cbn [dropna].
  - split; [intros _ c [] | reflexivity].
  - split; [discriminate|]. intros H.
    specialize (H (Some v) (or_introl eq_refl)). discriminate.
  - rewrite IH. split.
    + intros H c [<-|Hc]; [reflexivity | now apply H].
    + intros H c Hc. apply H. now right.
Qed.

(** X9: every row of the ranking table is the row of an eligible profile
    and reports the number of rows that profile has in the loaded table,
    rows without a rating included; that number is two at least. *)
Theorem ranking_row_counts_profile_rows df r
    (Hin : In r (ranking_df df (frequent_profiles df))) :
  In (r_perfil r) (frequent_profiles df) /\
  total_entries r = length (group (rows df) (r_perfil r)) /\
  2 <= total_entries r.
Proof.
  apply in_agg_eligible in Hin. destruct Hin as [Hk Hr].
  assert (Ht : total_entries r = length (group (rows df) (r_perfil r)))
    by (rewrite Hr; reflexivity).
  split; [exact Hk|]. split; [exact Ht|].
  apply in_frequent_profiles in Hk. lia.
Qed.

Lemma no_frequent_profile df :
  (forall p, length (group (rows df) p) <= 1) -> frequent_profiles df = [].
Proof.
  intros H. destruct (frequent_profiles df) as [|p l] eqn:E; [reflexivity|].
  assert (Hp : In p (frequent_profiles df)) by (rewrite E; now left).
  apply in_frequent_profiles in Hp. specialize (H p). lia.
Qed.

Lemma ranking_of_no_profile df : ranking_df df [] = [].
Proof.
  unfold ranking_df. cbn [getitem_mask rows].
  replace (filter (fun r => isin [] (perfil r)) (rows df)) with (@nil row);
    [reflexivity|].
  induction (rows df) as [|r l IH]; [reflexivity|].
  cbn [filter]. now destruct (perfil r).
Qed.

(** X10: on a table with rows in which no profile has two rows, the render
    shows the title, a select box without options, no panel, the ranking
    heading with an empty ranking table and the footer; the classifier is
    not called and no object is created. *)
Theorem render_without_eligible_profile df choice st
    (Hheap : heap st = [df]) (Hdata : empty df = false)
    (Hsingle : forall p, length (group (rows df) p) <= 1) :
  main 0 choice st =
    (Ok tt,
     mkState (screen st ++
                [st_title title_text;
                 st_selectbox selectbox_label [] selectbox_help;
                 st_subheader "🏆 Top Influencers por média de notas";
                 st_dataframe [];
                 st_markdown [Lit "---"]; st_markdown [Lit "Developed by zLobo"]])
             [df] (data_cache st) (calls st)).
Proof.
  pose proof (no_frequent_profile df Hsingle) as Hfreq.
  rewrite (main_heap_state st df Hheap) at 1. rewrite main_run, Hdata.
  unfold shown_profile, header, ranking, footer. rewrite Hfreq.
  rewrite ranking_of_no_profile.
  unfold selected. destruct choice; reflexivity.
Qed.

Lemma sentiment_summary_defined df choice p :
  has_sentiment df = false -> shown_profile df choice = Some p ->
  exists k, sentiment_summary df p = Ok k.
Proof.
  intros Hcol Hsel. unfold sentiment_summary.
  apply idxmax_value_counts_defined. rewrite profile_data_buckets.
  now apply (per_row_buckets_classified df choice p).
Qed.

(** X11: on a table that has no sentiment column of its own, a render
    never raises, whatever the classifier does; it calls the classifier once
    for each row of the shown profile, that is twice at least, and not at
    all when no profile is shown. *)
Theorem render_never_raises_without_sentiment_column df choice st
    (Hheap : heap st = [df]) (Hcol : has_sentiment df = false) :
  fst (main 0 choice st) = Ok tt /\
  exists texts,
    calls (snd (main 0 choice st)) = calls st ++ texts /\
    match shown_profile df choice with
    | Some p => length texts = length (group (rows df) p) /\ 2 <= length texts
    | None => texts = []
    end.
Proof.
  split.
  - rewrite (main_heap_state st df Hheap) at 1. rewrite main_run.
    destruct (empty df); [reflexivity|].
    destruct (shown_profile df choice) as [p|] eqn:Hsel; [|reflexivity].
    destruct (sentiment_summary_defined df choice p Hcol Hsel) as [k Hk].
    cbv zeta. now rewrite Hk.
  - exists (render_texts df choice). split; [now apply main_calls|].
    unfold render_texts.
    destruct (shown_profile df choice) as [p|] eqn:Hsel.
    + destruct (shown_profile_rows df choice p Hsel) as [Hlen ->].
      unfold texts_of. rewrite Hcol, length_map. now split.
    + now destruct (empty df).
Qed.

Lemma render_texts_with_column df choice :
  has_sentiment df = true -> render_texts df choice = [].
Proof.
  intros Hcol. unfold render_texts, texts_of. rewrite Hcol.
  destruct (empty df); [reflexivity|].
  now destruct (shown_profile df choice).
Qed.

(** X12: on a table that already has a 'sentiment_experiencia' column, the
    guard of line 79 skips the analysis: a render never calls the
    classifier, and the sentiment panel shows the first most frequent of
    the non-missing cells that column holds for the shown profile. *)
Theorem existing_sentiment_column_is_reused df choice st
    (Hheap : heap st = [df]) (Hcol : has_sentiment df = true) :
  calls (snd (main 0 choice st)) = calls st /\
  (forall p,
     shown_profile df choice = Some p ->
     dropna (map sentiment_experiencia (group (rows df) p)) <> [] ->
     exists k,
       first_mode k (dropna (map sentiment_experiencia (group (rows df) p))) /\
       fst (main 0 choice st) = Ok tt /\
       In (st_in_column 1 (st_markdown [Lit "## "; Fmt_cell (Some k)]))
          (screen (snd (main 0 choice st)))).
Proof.
  split.
  - rewrite (main_calls df choice st Hheap).
    now rewrite (render_texts_with_column df choice Hcol), app_nil_r.
  - intros p Hsel Hcells.
    assert (Hb : per_row_buckets df p =
                 dropna (map sentiment_experiencia (group (rows df) p)))
      by (unfold per_row_buckets; now rewrite Hcol).
    rewrite <- Hb in *. rewrite <- profile_data_buckets in *.
    destruct (idxmax_value_counts_defined _ Hcells) as [k Hk].
    exists k. split; [now apply idxmax_value_counts_first_mode|].
    rewrite (main_run_shown df choice p k st Hheap Hsel Hk).
    split; [reflexivity|]. cbn [snd screen].
    do 3 (apply in_or_app; right). apply in_or_app. left.
    cbn. right. now left.
Qed.

(** X13: when the table has a 'sentiment_experiencia' column whose cells
    are all missing for the shown profile, line 84 raises a ValueError: the
    render stops after the select box, with no panel, no ranking table and
    no footer, and the classifier has not been called. *)
Theorem empty_sentiment_column_aborts_render df choice p st
    (Hheap : heap st = [df]) (Hcol : has_sentiment df = true)
    (Hsel : shown_profile df choice = Some p)
    (Hnan : forall r, In r (group (rows df) p) -> sentiment_experiencia r = None) :
  main 0 choice st =
    (Raise (mkExn "ValueError" "attempt to get argmax of an empty sequence"),
     mkState (screen st ++
                [st_title title_text;
                 st_selectbox selectbox_label (frequent_profiles df) selectbox_help])
             [df; getitem_mask (fun r => eq_cell (perfil r) p) df;
              profile_data_of df p]
             (data_cache st) (calls st)).
Proof.
  rewrite (main_heap_state st df Hheap) at 1.
  rewrite main_run, Hsel, (proj2 (shown_profile_rows df choice p Hsel)).
  assert (Hnone : dropna (map sentiment_experiencia (rows (profile_data_of df p)))
                  = []).
  { rewrite profile_data_buckets. unfold per_row_buckets. rewrite Hcol.
    apply dropna_nil. intros c Hc. apply in_map_iff in Hc.
    destruct Hc as (r & <- & Hr). now apply Hnan. }
  cbv zeta. unfold sentiment_summary, idxmax, value_counts. rewrite Hnone.
  cbn [unique map sort_desc first_max].
  unfold texts_of. rewrite Hcol. cbn [flat_map].
  now rewrite !app_nil_r.
Qed.

(** X14: when a render shows the panels of a profile and runs to its end,
    the number of feedbacks in the third panel is the number of rows of the
    profile in the loaded table, and the ranking table shown has a row for
    that profile with the same number. *)
Theorem panel_count_agrees_with_ranking df choice p st
    (Hheap : heap st = [df])
    (Hsel : shown_profile df choice = Some p)
    (Hok : fst (main 0 choice st) = Ok tt) :
  In (st_in_column 3
        (st_markdown [Lit "## "; Fmt_int (length (group (rows df) p))]))
     (screen (snd (main 0 choice st))) /\
  In (st_dataframe (ranking_df df (frequent_profiles df)))
     (screen (snd (main 0 choice st))) /\
  exists r,
    In r (ranking_df df (frequent_profiles df)) /\
    r_perfil r = p /\
    total_entries r = length (group (rows df) p).
Proof.
  assert (Hlen : length (rows (profile_data_of df p)) =
                 length (group (rows df) p))
    by (unfold profile_data_of; cbn [rows]; now rewrite length_map).
  destruct (sentiment_summary df p) as [k|e] eqn:Hk.
  - rewrite (main_run_shown df choice p k st Hheap Hsel Hk).
    cbn [snd screen]. rewrite Hlen.
    split; [|split].
    + do 3 (apply in_or_app; right). apply in_or_app. left.
      cbn. do 5 right. now left.
    + do 4 (apply in_or_app; right). apply in_or_app. left.
      cbn. right. now left.
    + exists (mkRank p (mean (map nota (group (rows df) p)))
                (length (group (rows df) p))).
      split; [|now split].
      apply in_agg_eligible. cbn [r_perfil]. split; [|reflexivity].
      now apply (shown_profile_frequent df choice p).
  - exfalso. revert Hok. rewrite (main_heap_state st df Hheap) at 1.
    rewrite main_run, Hsel, (proj2 (shown_profile_rows df choice p Hsel)).
    cbv zeta. rewrite Hk. discriminate.
Qed.

(** X15: the two objects a render creates for a shown profile: the
    selection [df[df['perfil'] == p]] holds the rows of the profile as they
    are in the loaded table, and the processed copy has the same rows with
    the profile, the rating and the date of each left as they were. *)
Theorem profile_copy_keeps_other_columns df choice p st
    (Hheap : heap st = [df])
    (Hsel : shown_profile df choice = Some p) :
  exists selection pd,
    heap (snd (main 0 choice st)) = [df; selection; pd] /\
    rows selection = group (rows df) p /\
    length (rows pd) = length (rows selection) /\
    map perfil (rows pd) = map perfil (rows selection) /\
    map nota (rows pd) = map nota (rows selection) /\
    map data (rows pd) = map data (rows selection) /\
    Forall (fun r => perfil r = Some p) (rows pd).
Proof.
  exists (getitem_mask (fun r => eq_cell (perfil r) p) df), (profile_data_of df p).
  split.
  - rewrite (main_heap_state st df Hheap) at 1.
    rewrite main_run, Hsel, (proj2 (shown_profile_rows df choice p Hsel)).
    cbv zeta. now destruct (sentiment_summary df p).
  - unfold profile_data_of. cbn [getitem_mask rows]. fold (group (rows df) p).
    rewrite length_map, !map_map. cbn [perfil nota data].
    repeat split.
    apply Forall_forall. intros r Hr. apply in_map_iff in Hr.
    destruct Hr as (x & <- & Hx). cbn [perfil].
    unfold group in Hx. apply filter_In in Hx. destruct Hx as [_ Hx].
    destruct (perfil x) as [q|]; [|discriminate].
    cbn [eq_cell] in Hx. apply String.eqb_eq in Hx. now subst.
Qed.

(** ** Further properties: the cache of the loader *)

(** The first run of a session: the loader runs, its outcome is stored,
    and the rest of the script works on it. *)
Lemma script_first_run choice :
  exists d els,
    load_data fresh_session = (Ok d, mkState els [] None []) /\
    script choice fresh_session =
      main 0 choice (mkState els [d] (Some (d, els)) []).
Proof.
  destruct (load_data_frame fresh_session) as (d & els & H).
  unfold fresh_session in *. cbn [screen heap data_cache calls app] in H.
  exists d, els. split; [exact H|].
  unfold script, bind, cache_data, alloc. cbn [data_cache]. rewrite H.
  reflexivity.
Qed.

End Script.













(** ** The properties on the sample inputs *)

Lemma analyze_sentiment_star_mapping_witness :
  Sample.pipeline (Some "otimo") = Ok [mkPrediction "5 stars" (9 # 10)%Q] /\
  fst (analyze_sentiment Sample.pipeline (Some "otimo") fresh_session) = Ok GOOD.
Proof.
  pose proof (analyze_sentiment_star_mapping Sample.pipeline (Some "otimo")
                (mkPrediction "5 stars" (9 # 10)%Q) [] fresh_session eq_refl)
    as (_ & _ & Hgood & _).
  split; [reflexivity|]. apply Hgood. right. reflexivity.
Defined.

Lemma load_data_failure_gives_empty_table_witness :
  load_failure Sample.getenv_missing Sample.requests_get_404 Sample.read_csv
    Sample.not_found /\
  fst (load_data Sample.getenv_missing Sample.requests_get_404 Sample.read_csv
         fresh_session) = Ok pd_DataFrame.
Proof.
  assert (H : load_failure Sample.getenv_missing Sample.requests_get_404
                Sample.read_csv Sample.not_found).
  { apply bad_status
      with (response := mkResponse 404 "Not Found"
                          "https://drive.google.com/uc?id=None"
                          "<html>Not Found</html>");
      reflexivity. }
  split; [exact H|].
  rewrite (proj1 (load_data_failure_gives_empty_table Sample.getenv_missing
                    Sample.requests_get_404 Sample.read_csv Sample.pipeline
                    Sample.not_found fresh_session H)).
  reflexivity.
Defined.

Lemma eligible_profiles_have_two_rows_witness :
  length (group (rows Sample.df) "caio") = 1 /\
  ~ In "caio" (frequent_profiles Sample.df) /\
  2 <= length (group (rows Sample.df) "ana") /\
  In "ana" (map r_perfil (ranking_df Sample.df (frequent_profiles Sample.df))).
Proof.
  pose proof (eligible_profiles_have_two_rows Sample.pipeline Sample.df 0 "caio"
                (loaded Sample.df) eq_refl eq_refl) as (_ & _ & Hone & _).
  pose proof (eligible_profiles_have_two_rows Sample.pipeline Sample.df 0 "ana"
                (loaded Sample.df) eq_refl eq_refl) as (_ & _ & _ & Htwo).
  assert (H1 : length (group (rows Sample.df) "caio") = 1) by reflexivity.
  assert (H2 : 2 <= length (group (rows Sample.df) "ana")) by (vm_compute; lia).
  split; [exact H1|]. split; [exact (proj1 (Hone H1))|].
  split; [exact H2 | exact (proj2 (Htwo H2))].
Defined.

(** C3, as the claim states it, fails on the sample table: "bia" has no
    rating, so its mean is NaN and its row comes last, after a row whose
    mean is 3; the comparison 3 >= NaN is false. *)
Lemma ranking_adjacent_ge_counterexample :
  ranking_df Sample.df (frequent_profiles Sample.df) =
    [mkRank "ana" (Some (8 # 2)%Q) 2] ++
    mkRank "duda" (Some (6 # 2)%Q) 2 :: mkRank "bia" None 2 :: [] /\
  float_ge (avg_nota (mkRank "duda" (Some (6 # 2)%Q) 2))
           (avg_nota (mkRank "bia" None 2)) = false.
Proof. split; vm_compute; reflexivity. Qed.

Lemma ranking_sorted_nan_last_witness :
  ranking_df Sample.df (frequent_profiles Sample.df) =
    [] ++ mkRank "ana" (Some (8 # 2)%Q) 2 ::
          mkRank "duda" (Some (6 # 2)%Q) 2 :: [mkRank "bia" None 2] /\
  exists a, Some (8 # 2)%Q = Some a /\ (6 # 2 <= a)%Q.
Proof.
  assert (H : ranking_df Sample.df (frequent_profiles Sample.df) =
              [] ++ mkRank "ana" (Some (8 # 2)%Q) 2 ::
                mkRank "duda" (Some (6 # 2)%Q) 2 :: [mkRank "bia" None 2])
    by (vm_compute; reflexivity).
  split; [exact H|].
  exact (ranking_sorted_nan_last Sample.df []
           (mkRank "ana" (Some (8 # 2)%Q) 2) (mkRank "duda" (Some (6 # 2)%Q) 2)
           [mkRank "bia" None 2] (6 # 2)%Q H eq_refl).
Defined.

Lemma classifier_failure_falls_back_witness :
  Sample.pipeline (Some "No content") = Raise (mkExn "RuntimeError" "model failure") /\
  fst (main Sample.pipeline 0 0 (loaded Sample.df)) = Ok tt.
Proof.
  pose proof (classifier_failure_falls_back Sample.pipeline (Some "No content")
                (mkExn "RuntimeError" "model failure") fresh_session eq_refl)
    as (_ & _ & _ & _ & Hrender).
  split; [reflexivity|].
  assert (Hcalls : calls (snd (main Sample.pipeline 0 0 (loaded Sample.df))) =
                   calls (loaded Sample.df) ++ [Some "otimo"; Some "No content"])
    by (vm_compute; reflexivity).
  assert (Hin : In (Some "No content") [Some "otimo"; Some "No content"])
    by (right; now left).
  exact (proj1 (Hrender Sample.df 0 (loaded Sample.df) _ eq_refl Hcalls Hin)).
Defined.

Lemma missing_text_replaced_before_classification_witness :
  shown_profile Sample.df 0 = Some "ana" /\
  exists texts,
    calls (snd (main Sample.pipeline 0 0 (loaded Sample.df))) = texts /\
    Forall (fun t => t <> None) texts.
Proof.
  assert (Hsel : shown_profile Sample.df 0 = Some "ana") by (vm_compute; reflexivity).
  split; [exact Hsel|].
  destruct (missing_text_replaced_before_classification Sample.pipeline Sample.df 0
              "ana" (loaded Sample.df) eq_refl Hsel)
    as (texts & pd & Hcalls & Hall & _).
  exists texts. split; assumption.
Defined.

Lemma sentiment_summary_is_first_mode_witness :
  shown_profile Sample.df 0 = Some "ana" /\
  has_sentiment Sample.df = false /\
  per_row_buckets Sample.pipeline Sample.df "ana" = [GOOD; FALLBACK] /\
  exists k,
    first_mode k (per_row_buckets Sample.pipeline Sample.df "ana") /\
    fst (main Sample.pipeline 0 0 (loaded Sample.df)) = Ok tt.
Proof.
  assert (Hsel : shown_profile Sample.df 0 = Some "ana") by (vm_compute; reflexivity).
  assert (Hb : per_row_buckets Sample.pipeline Sample.df "ana" = [GOOD; FALLBACK])
    by (vm_compute; reflexivity).
  split; [exact Hsel|]. split; [reflexivity|]. split; [exact Hb|].
  destruct (sentiment_summary_is_first_mode Sample.pipeline Sample.df 0 "ana"
              (loaded Sample.df) eq_refl Hsel (or_introl eq_refl))
    as (k & Hk & Hok & _).
  exists k. split; assumption.
Defined.

(** C7, as the claim states it, fails on the table [Edge.df_scored], which
    has a 'sentiment_experiencia' column of its own: the profile "bia" is
    selected and has two feedback rows, but its cells of that column are
    missing, so line 84 raises and no sentiment summary is displayed. *)
Lemma sentiment_summary_counterexample :
  shown_profile Edge.df_scored 1 = Some "bia" /\
  length (group (rows Edge.df_scored) "bia") = 2 /\
  fst (main Sample.pipeline 0 1 (loaded Edge.df_scored)) =
    Raise (mkExn "ValueError" "attempt to get argmax of an empty sequence") /\
  screen (snd (main Sample.pipeline 0 1 (loaded Edge.df_scored))) =
    [st_title title_text;
     st_selectbox selectbox_label ["ana"; "bia"] selectbox_help].
Proof. repeat split; vm_compute; reflexivity. Qed.

Lemma empty_table_renders_warning_only_witness :
  empty pd_DataFrame = true /\
  fst (main Sample.pipeline 0 0 (loaded pd_DataFrame)) = Ok tt.
Proof.
  split; [reflexivity|].
  destruct (empty_table_renders_warning_only Sample.getenv Sample.requests_get
              Sample.read_csv Sample.pipeline pd_DataFrame 0
              (loaded pd_DataFrame) eq_refl eq_refl) as (rendered & Hrun & _).
  rewrite Hrun. reflexivity.
Defined.

Lemma loaded_table_is_not_modified_witness :
  heap (loaded Sample.df) = [Sample.df] /\
  nth_error (heap (snd (main Sample.pipeline 0 0 (loaded Sample.df)))) 0 =
    Some Sample.df.
Proof.
  split; [reflexivity|].
  exact (proj1 (loaded_table_is_not_modified Sample.pipeline Sample.df 0
                  (loaded Sample.df) eq_refl)).
Defined.

(** C8 on the sample session: the second run with the same selection hands
    the two texts of "ana" to the classifier again. *)
Theorem second_render_classifies_again :
  let run1 := script Sample.getenv Sample.requests_get Sample.read_csv
                Sample.pipeline 0 fresh_session in
  let run2 := rerun Sample.getenv Sample.requests_get Sample.read_csv
                Sample.pipeline 0 (snd run1) in
  calls (snd run1) = [Some "otimo"; Some "No content"] /\
  calls (snd run2) = [Some "otimo"; Some "No content";
                      Some "otimo"; Some "No content"].
Proof. split; vm_compute; reflexivity. Qed.

(** ** Further properties: reruns in another world *)

(** X3: the loader runs once per session.  The first run stores the table
    it returned together with what it rendered; a later run, whatever the
    environment, the network and the parser have become, renders the stored
    table without asking them. *)
Theorem cached_table_is_not_fetched_again
    (getenv getenv' : string -> option string)
    (requests_get requests_get' : string -> result Response)
    (read_csv read_csv' : string -> result DataFrame)
    (pipeline : option string -> result (list prediction))
    (choice choice' : nat) :
  exists d els,
    load_data getenv requests_get read_csv fresh_session =
      (Ok d, mkState els [] None []) /\
    data_cache (snd (script getenv requests_get read_csv pipeline choice
                       fresh_session)) = Some (d, els) /\
    rerun getenv' requests_get' read_csv' pipeline choice'
      (snd (script getenv requests_get read_csv pipeline choice fresh_session)) =
    main pipeline 0 choice'
      (mkState els [d] (Some (d, els))
         (calls (snd (script getenv requests_get read_csv pipeline choice
                        fresh_session)))).
Proof.
  destruct (script_first_run getenv requests_get read_csv pipeline choice)
    as (d & els & Hload & Hrun).
  exists d, els. split; [exact Hload|].
  assert (Hcache : data_cache (snd (script getenv requests_get read_csv pipeline
                                      choice fresh_session)) = Some (d, els)).
  { rewrite Hrun. now rewrite (main_cache pipeline d choice). }
  split; [exact Hcache|].
  now apply rerun_cached.
Qed.

(** X16: a failed load is stored like any other: after a first run in
    which the loader failed, every later run of the session shows the same
    error and the empty-table warning again, even when the download would
    now succeed. *)
Theorem failed_load_is_cached
    (getenv getenv' : string -> option string)
    (requests_get requests_get' : string -> result Response)
    (read_csv read_csv' : string -> result DataFrame)
    (pipeline : option string -> result (list prediction))
    (choice choice' : nat) (e : exn)
    (Hfail : load_failure getenv requests_get read_csv e) :
  rerun getenv' requests_get' read_csv' pipeline choice'
    (snd (script getenv requests_get read_csv pipeline choice fresh_session)) =
  (Ok tt,
   mkState [st_error [Lit "Error loading data: "; Fmt_exn e];
            st_title title_text; st_warning [Lit no_data_text];
            st_markdown [Lit "---"]; st_markdown [Lit "Developed by zLobo"]]
           [pd_DataFrame]
           (Some (pd_DataFrame, [st_error [Lit "Error loading data: "; Fmt_exn e]]))
           []).
Proof.
  rewrite (script_after_failed_load getenv requests_get read_csv pipeline e choice
             Hfail).
  cbn [snd].
  erewrite (rerun_cached getenv' requests_get' read_csv' pipeline _ choice'
              pd_DataFrame [st_error [Lit "Error loading data: "; Fmt_exn e]])
    by reflexivity.
  cbn [calls]. now rewrite main_run.
Qed.

(** ** The further properties on the sample and edge inputs *)

Lemma analyze_sentiment_empty_answer_witness :
  Edge.pipeline_silent (Some "otimo") = Ok [] /\
  fst (analyze_sentiment Edge.pipeline_silent (Some "otimo") fresh_session) =
    Ok "NEUTRAL".
Proof.
  split; [reflexivity|].
  rewrite (analyze_sentiment_empty_answer Edge.pipeline_silent (Some "otimo")
             fresh_session eq_refl).
  reflexivity.
Defined.

Lemma ranking_row_counts_profile_rows_witness :
  In (mkRank "bia" None 2) (ranking_df Sample.df (frequent_profiles Sample.df)) /\
  total_entries (mkRank "bia" None 2) = length (group (rows Sample.df) "bia").
Proof.
  assert (Hin : In (mkRank "bia" None 2)
                   (ranking_df Sample.df (frequent_profiles Sample.df)))
    by (vm_compute; right; right; left; reflexivity).
  destruct (ranking_row_counts_profile_rows Sample.df (mkRank "bia" None 2) Hin)
    as (_ & Hcount & _).
  split; [exact Hin | exact Hcount].
Defined.

Lemma render_without_eligible_profile_witness :
  empty Edge.df_singles = false /\
  (forall p, length (group (rows Edge.df_singles) p) <= 1) /\
  fst (main Sample.pipeline 0 0 (loaded Edge.df_singles)) = Ok tt.
Proof.
  assert (Hsingle : forall p, length (group (rows Edge.df_singles) p) <= 1).
  { intros p. unfold group, Edge.df_singles, Sample.feedback.
    cbn [rows filter perfil eq_cell].
    destruct (String.eqb_spec "ana" p) as [<-|_].
    - cbn. lia.
    - destruct (String.eqb "bia" p); cbn [length]; lia. }
  split; [reflexivity|]. split; [exact Hsingle|].
  rewrite (render_without_eligible_profile Sample.pipeline Edge.df_singles 0
             (loaded Edge.df_singles) eq_refl eq_refl Hsingle).
  reflexivity.
Defined.

Lemma render_never_raises_without_sentiment_column_witness :
  has_sentiment Sample.df = false /\
  fst (main Sample.pipeline 0 0 (loaded Sample.df)) = Ok tt.
Proof.
  split; [reflexivity|].
  exact (proj1 (render_never_raises_without_sentiment_column Sample.pipeline
                  Sample.df 0 (loaded Sample.df) eq_refl eq_refl)).
Defined.

Lemma existing_sentiment_column_is_reused_witness :
  has_sentiment Edge.df_scored = true /\
  calls (snd (main Sample.pipeline 0 0 (loaded Edge.df_scored))) = [].
Proof.
  split; [reflexivity|].
  exact (proj1 (existing_sentiment_column_is_reused Sample.pipeline Edge.df_scored
                  0 (loaded Edge.df_scored) eq_refl eq_refl)).
Defined.

Lemma empty_sentiment_column_aborts_render_witness :
  shown_profile Edge.df_scored 1 = Some "bia" /\
  (forall r, In r (group (rows Edge.df_scored) "bia") ->
             sentiment_experiencia r = None) /\
  fst (main Sample.pipeline 0 1 (loaded Edge.df_scored)) =
    Raise (mkExn "ValueError" "attempt to get argmax of an empty sequence").
Proof.
  assert (Hsel : shown_profile Edge.df_scored 1 = Some "bia")
    by (vm_compute; reflexivity).
  assert (Hnan : forall r, In r (group (rows Edge.df_scored) "bia") ->
                           sentiment_experiencia r = None).
  { intros r Hr. cbn in Hr. destruct Hr as [<-|[<-|[]]]; reflexivity. }
  split; [exact Hsel|]. split; [exact Hnan|].
  rewrite (empty_sentiment_column_aborts_render Sample.pipeline Edge.df_scored 1
             "bia" (loaded Edge.df_scored) eq_refl eq_refl Hsel Hnan).
  reflexivity.
Defined.

Lemma panel_count_agrees_with_ranking_witness :
  shown_profile Sample.df 0 = Some "ana" /\
  fst (main Sample.pipeline 0 0 (loaded Sample.df)) = Ok tt /\
  exists r,
    In r (ranking_df Sample.df (frequent_profiles Sample.df)) /\
    r_perfil r = "ana" /\
    total_entries r = length (group (rows Sample.df) "ana").
Proof.
  assert (Hsel : shown_profile Sample.df 0 = Some "ana") by (vm_compute; reflexivity).
  assert (Hok : fst (main Sample.pipeline 0 0 (loaded Sample.df)) = Ok tt)
    by (vm_compute; reflexivity).
  split; [exact Hsel|]. split; [exact Hok|].
  destruct (panel_count_agrees_with_ranking Sample.pipeline Sample.df 0 "ana"
              (loaded Sample.df) eq_refl Hsel Hok) as (_ & _ & H).
  exact H.
Defined.

Lemma profile_copy_keeps_other_columns_witness :
  shown_profile Sample.df 0 = Some "ana" /\
  exists selection pd,
    heap (snd (main Sample.pipeline 0 0 (loaded Sample.df))) =
      [Sample.df; selection; pd] /\
    map nota (rows pd) = map nota (rows selection).
Proof.
  assert (Hsel : shown_profile Sample.df 0 = Some "ana") by (vm_compute; reflexivity).
  split; [exact Hsel|].
  destruct (profile_copy_keeps_other_columns Sample.pipeline Sample.df 0 "ana"
              (loaded Sample.df) eq_refl Hsel)
    as (selection & pd & Hheap & _ & _ & _ & Hnota & _).
  exists selection, pd. split; assumption.
Defined.

Lemma failed_load_is_cached_witness :
  load_failure Sample.getenv_missing Sample.requests_get_404 Sample.read_csv
    Sample.not_found /\
  fst (rerun Sample.getenv Sample.requests_get Sample.read_csv Sample.pipeline 0
         (snd (script Sample.getenv_missing Sample.requests_get_404
                 Sample.read_csv Sample.pipeline 0 fresh_session))) = Ok tt.
Proof.
  assert (H : load_failure Sample.getenv_missing Sample.requests_get_404
                Sample.read_csv Sample.not_found).
  { apply bad_status
      with (response := mkResponse 404 "Not Found"
                          "https://drive.google.com/uc?id=None"
                          "<html>Not Found</html>");
      reflexivity. }
  split; [exact H|].
  rewrite (failed_load_is_cached Sample.getenv_missing Sample.getenv
             Sample.requests_get_404 Sample.requests_get
             Sample.read_csv Sample.read_csv Sample.pipeline 0 0
             Sample.not_found H).
  reflexivity.
Defined.
